(** * storage.js: offline storage wrapper and storage mode manager

    A shallow embedding of [src/assets/js/storage.js].  The module keeps a
    list of player records in the browser's [localStorage] under one key,
    behind the call shape of the remote [dataSdk] (init, create, update,
    delete, read), and a mode manager chooses between the two back ends.

    The embedding follows the source method by method.  JavaScript values
    are a small JSON datatype, the host ([localStorage], the [window]
    bindings the module reads, the registered change handler's calls) is an
    explicit state, and every method is a computation in a state-and-exception
    monad, so that [try]/[catch], the order of writes and notifications, and
    the state left behind by a failing call are all visible. *)

From stdpp Require Import base gmap strings list pretty.
From Stdlib Require Import ZArith.

Set Warnings "-register-all".

Local Open Scope Z_scope.

(** ** JavaScript values *)

(** The values that can be stored: what [JSON.parse] returns, and what a
    caller submits as a record.  Numbers are restricted to integers; the
    module never computes with a number of a record, it only tests one for
    zero and compares two for equality.  Objects are finite maps from
    property names to values, so that equality is deep equality. *)
Inductive JSON : Type :=
| JNull
| JBool (b : bool)
| JNum (n : Z)
| JStr (s : string)
| JArr (xs : list JSON)
| JObj (o : gmap string JSON).

(** A value that may be [undefined] is an [option JSON]; [None] is
    [undefined]. *)
Abbreviation undefined := (@None JSON).

(** What can be thrown and caught. *)
Inductive exn : Type :=
| Error (message : string)     (* new Error(message) *)
| TypeError                    (* property access on null, call of a non-function *)
| SyntaxError                  (* JSON.parse on text that is not JSON *)
| QuotaExceededError           (* localStorage.setItem refused by the host *)
| Thrown (v : JSON).           (* any value thrown by the change handler *)

Inductive completion (A : Type) : Type :=
| Normal (a : A)
| Abrupt (e : exn).
Arguments Normal {A} a.
Arguments Abrupt {A} e.

(** ToBoolean, as used by [if], [!], [&&] and [||]. *)
Definition truthy (v : JSON) : bool :=
  match v with
  | JNull => false
  | JBool b => b
  | JNum n => negb (n =? 0)
  | JStr s => negb (String.eqb s "")
  | JArr _ | JObj _ => true
  end.

Definition truthy_opt (v : option JSON) : bool :=
  match v with
  | Some v => truthy v
  | None => false
  end.

(** [a === b].  Primitives compare by value.  Two objects or arrays are
    equal only when they are the same reference; every comparison in the
    module has on one side a value that [JSON.parse] has just built, which
    is the same reference as nothing else. *)
Definition strict_eq (a b : option JSON) : bool :=
  match a, b with
  | None, None => true
  | Some JNull, Some JNull => true
  | Some (JBool x), Some (JBool y) => Bool.eqb x y
  | Some (JNum x), Some (JNum y) => x =? y
  | Some (JStr x), Some (JStr y) => String.eqb x y
  | _, _ => false
  end.

(** [{...v}]: the own enumerable properties of [v].  An object gives its
    properties, an array its elements under their indices, a string its
    characters under their indices, and [null], [undefined], numbers and
    booleans give nothing. *)
Definition indexed {A} (f : A → JSON) (l : list A) : gmap string JSON :=
  list_to_map (imap (λ i x, (pretty i, f x)) l).

Definition spread (v : JSON) : gmap string JSON :=
  match v with
  | JObj o => o
  | JArr xs => indexed id xs
  | JStr s => indexed (λ c, JStr (String c EmptyString)) (String.list_ascii_of_string s)
  | JNull | JBool _ | JNum _ => ∅
  end.

(** ** The text held by [localStorage]

    The module makes two observations of a stored text: whether it is the
    empty string (a falsy value), and what [JSON.parse] makes of it.  A
    text is therefore identified with its class under these two
    observations: the text of a JSON value, the empty text, or a non-empty
    text that does not parse.  Texts that differ in white space or in the
    order of the keys of an object parse to deep-equal values and fall in
    the same class, so that [JSON.stringify(v)], with or without
    indentation, is the class of [v]: parsing what was stringified gives
    back a value deep-equal to [v], which is the contract of the two
    built-ins on JSON values. *)
Inductive text : Type :=
| Serialized (v : JSON)
| EmptyText
| Malformed.

Definition JSON_stringify (v : JSON) : text := Serialized v.

(** ToBoolean of the result of [localStorage.getItem]: [null] for a
    missing key and the empty string are falsy. *)
Definition text_truthy (d : option text) : bool :=
  match d with
  | None | Some EmptyText => false
  | Some (Serialized _) | Some Malformed => true
  end.

(** ** The host *)

(** [localStorage] with the host's admission policy for writes ([quota]
    tells whether [setItem] accepts a write given the current contents),
    the two [window] bindings the module reads, and the sequence of
    arguments with which [onDataChanged] callbacks have been called so far. *)
Record Window : Type := {
  localStorage : gmap string text;
  quota : gmap string text → string → text → bool;
  DEBUG_MODE : bool;
  dataSdk : option JSON;
  delivered : list JSON
}.

Definition M (A : Type) : Type := Window → completion A * Window.

Definition ret {A} (a : A) : M A := λ w, (Normal a, w).

Definition throw {A} (e : exn) : M A := λ w, (Abrupt e, w).

Definition bind {A B} (m : M A) (k : A → M B) : M B :=
  λ w, match m w with
       | (Normal a, w') => k a w'
       | (Abrupt e, w') => (Abrupt e, w')
       end.

(** [try { body } catch (error) { handler }]: the state reached when the
    exception was thrown is kept. *)
Definition try_catch {A} (body : M A) (handler : exn → M A) : M A :=
  λ w, match body w with
       | (Normal a, w') => (Normal a, w')
       | (Abrupt e, w') => handler e w'
       end.

Declare Scope js_scope.
Delimit Scope js_scope with js.
Notation "'let*' x := m 'in' k" := (bind m (λ x, k))
  (at level 10, x name, m at level 100, k at level 200, only parsing) : js_scope.
Notation "m >> k" := (bind m (λ _, k))
  (at level 100, k at level 200, right associativity, only parsing) : js_scope.
Local Open Scope js_scope.

(** [if (c) throw e;] *)
Definition throw_if (c : bool) (e : exn) : M unit :=
  if c then throw e else ret tt.

Definition when (c : bool) (m : M unit) : M unit :=
  if c then m else ret tt.

Definition getItem (key : string) : M (option text) :=
  λ w, (Normal (localStorage w !! key), w).

(** The host after a change of the stored items, and after one more call
    of the change callback. *)
Definition with_items (f : gmap string text → gmap string text) (w : Window) : Window :=
  {| localStorage := f (localStorage w);
     quota := quota w; DEBUG_MODE := DEBUG_MODE w;
     dataSdk := dataSdk w; delivered := delivered w |}.

Definition with_delivery (players : JSON) (w : Window) : Window :=
  {| localStorage := localStorage w;
     quota := quota w; DEBUG_MODE := DEBUG_MODE w;
     dataSdk := dataSdk w; delivered := delivered w ++ [players] |}.

Definition setItem (key : string) (value : text) : M unit :=
  λ w, if quota w (localStorage w) key value
       then (Normal tt, with_items (insert key value) w)
       else (Abrupt QuotaExceededError, w).

Definition removeItem (key : string) : M unit :=
  λ w, (Normal tt, with_items (delete key) w).

Definition window_DEBUG_MODE : M bool := λ w, (Normal (DEBUG_MODE w), w).

Definition window_dataSdk : M (option JSON) := λ w, (Normal (dataSdk w), w).

(** [JSON.parse(data)] on a text. *)
Definition JSON_parse (data : text) : M JSON :=
  match data with
  | Serialized v => ret v
  | EmptyText | Malformed => throw SyntaxError
  end.

(** [v.key] for a property name that is not an array index.  Reading a
    property of [null] throws; arrays and strings have a [length]; any
    other read of a missing property gives [undefined]. *)
Definition get (v : JSON) (key : string) : M (option JSON) :=
  match v with
  | JNull => throw TypeError
  | JObj o => ret (o !! key)
  | JArr xs =>
      ret (if String.eqb key "length" then Some (JNum (Z.of_nat (length xs))) else undefined)
  | JStr s =>
      ret (if String.eqb key "length" then Some (JNum (Z.of_nat (String.length s))) else undefined)
  | JBool _ | JNum _ => ret undefined
  end.

(** [a.push(x)]; only arrays have the method, calling it on anything else
    is a call of [undefined] or a read on [null]. *)
Definition Array_push (a : JSON) (x : JSON) : M JSON :=
  match a with
  | JArr xs => ret (JArr (xs ++ [x]))
  | _ => throw TypeError
  end.

(** [a.findIndex(f)]: the index of the first element on which [f] holds,
    [-1] when there is none; elements after the first hit are not visited. *)
Fixpoint findIndex_from (f : JSON → M bool) (xs : list JSON) (i : Z) : M Z :=
  match xs with
  | [] => ret (-1)
  | x :: xs' =>
      let* hit := f x in
      if hit then ret i else findIndex_from f xs' (i + 1)
  end.

Definition Array_findIndex (a : JSON) (f : JSON → M bool) : M Z :=
  match a with
  | JArr xs => findIndex_from f xs 0
  | _ => throw TypeError
  end.

(** [a.filter(f)]: every element is visited, in order. *)
Fixpoint filter_list (f : JSON → M bool) (xs : list JSON) : M (list JSON) :=
  match xs with
  | [] => ret []
  | x :: xs' =>
      let* keep := f x in
      let* rest := filter_list f xs' in
      ret (if keep then x :: rest else rest)
  end.

Definition Array_filter (a : JSON) (f : JSON → M bool) : M JSON :=
  match a with
  | JArr xs => let* ys := filter_list f xs in ret (JArr ys)
  | _ => throw TypeError
  end.

(** [a[i] = v] for an index [0 <= i].  Inside an array the element is
    replaced; past the end JavaScript extends the array, and the holes
    serialize as [null].  On an object the property named by the index is
    set; on [null] and, in strict mode, on a primitive the assignment
    throws. *)
Definition Array_set (a : JSON) (i : Z) (v : JSON) : M JSON :=
  match a with
  | JArr xs =>
      let n := Z.to_nat i in
      if decide (n < length xs)%nat
      then ret (JArr (<[n := v]> xs))
      else ret (JArr (xs ++ replicate (n - length xs) JNull ++ [v]))
  | JObj o => ret (JObj (<[pretty i := v]> o))
  | _ => throw TypeError
  end.

(** ** Storage keys *)

Module STORAGE_KEYS.
Definition PLAYERS : string := "xnroot_players".
Definition CURRENT_PLAYER : string := "xnroot_current_player".
Definition SETTINGS : string := "xnroot_settings".
End STORAGE_KEYS.

(** ** class OfflineResult *)

Module OfflineResult.
(** [constructor(success, data, error)]; the class is private to the
    module and is only built by [ok] and [error], so [_success] is a
    boolean.  A missing payload or error is [undefined]. *)
Record t : Type := {
  _success : bool;
  _data : option JSON;
  _error : option exn
}.

(** [static ok(data)] and [static error(error)]. *)
Definition ok (data : option JSON) : t :=
  {| _success := true; _data := data; _error := None |}.

Definition error (error : exn) : t :=
  {| _success := false; _data := undefined; _error := Some error |}.

(** The getters [isOk], [isError], [data] and [error]. *)
Definition get_isOk (this : t) : bool := _success this.

Definition get_isError (this : t) : bool := negb (_success this).

Definition get_data (this : t) : completion (option JSON) :=
  if negb (_success this)
  then Abrupt (Error "Cannot access data on error result")
  else Normal (_data this).

Definition get_error (this : t) : completion (option exn) :=
  if _success this
  then Abrupt (Error "Cannot access error on success result")
  else Normal (_error this).
End OfflineResult.

(** ** class OfflineStorageService *)

(** A change handler is an object that may carry an [onDataChanged]
    callback.  The callback observes the collection it is given and either
    returns or throws; it does not itself write to [localStorage]. *)
Record Handler : Type := {
  onDataChanged : option (JSON → option exn)
}.

(** [this.dataHandler.onDataChanged(players)]; the call is recorded in
    [delivered] whether the callback returns or throws. *)
Definition call_onDataChanged (f : JSON → option exn) (players : JSON) : M unit :=
  λ w, (match f players with
        | None => Normal tt
        | Some e => Abrupt e
        end,
        with_delivery players w).

Module OfflineStorageService.
Import STORAGE_KEYS.

(** The instance fields; [pollingInterval] is set to [null] by the
    constructor and never used again. *)
Record t : Type := {
  dataHandler : option Handler;     (* null, or the handler given to init *)
  initialized : bool
}.

(** The notification step shared by the methods; the argument is only
    evaluated when there is a callback to receive it. *)
Definition notify (this : t) (players : M JSON) : M unit :=
  match dataHandler this with
  | Some h =>
      match onDataChanged h with
      | Some f => let* ps := players in call_onDataChanged f ps
      | None => ret tt
      end
  | None => ret tt
  end.

Definition _initializeStorage : M unit :=
  let* players := getItem PLAYERS in
  when (negb (text_truthy players))
    (setItem PLAYERS (JSON_stringify (JArr []))) >>
  let* settings := getItem SETTINGS in
  when (negb (text_truthy settings))
    (setItem SETTINGS (JSON_stringify (JObj ∅))).

(** [constructor()] *)
Definition new : M t :=
  _initializeStorage >>
  ret {| dataHandler := None; initialized := false |}.

(** [Date.now()] is [now]; [Math.random().toString(36)] is [random36]. *)
Definition _generateId (now : Z) (random36 : string) : string :=
  "offline_" +:+ pretty now +:+ "_" +:+ String.substring 2 9 random36.

Definition _getAllPlayers : M JSON :=
  try_catch
    (let* data := getItem PLAYERS in
     match data with
     | Some d => if text_truthy data then JSON_parse d else ret (JArr [])
     | None => ret (JArr [])
     end)
    (λ error, ret (JArr [])).

Definition _saveAllPlayers (players : JSON) : M bool :=
  try_catch
    (setItem PLAYERS (JSON_stringify players) >>
     ret true)
    (λ error, ret false).

Definition init (this : t) (handler : option Handler)
  : M (t * OfflineResult.t) :=
  let this := {| dataHandler := handler; initialized := true |} in
  let* result :=
    try_catch
      (let* players := _getAllPlayers in
       notify this (ret players) >>
       ret (OfflineResult.ok undefined))
      (λ error, ret (OfflineResult.error error)) in
  ret (this, result).

Definition create (this : t) (record : JSON)
    (now : Z) (random36 : string) : M OfflineResult.t :=
  try_catch
    (throw_if (negb (initialized this))
       (Error "Storage not initialized. Call init() first.") >>
     let* players := _getAllPlayers in
     let newRecord :=
       JObj (<["__backendId" := JStr (_generateId now random36)]> (spread record)) in
     let* players := Array_push players newRecord in
     let* saved := _saveAllPlayers players in
     throw_if (negb saved) (Error "Failed to save to localStorage") >>
     notify this (ret players) >>
     ret (OfflineResult.ok undefined))
    (λ error, ret (OfflineResult.error error)).

Definition update (this : t) (record : JSON) : M OfflineResult.t :=
  try_catch
    (throw_if (negb (initialized this))
       (Error "Storage not initialized. Call init() first.") >>
     let* id := get record "__backendId" in
     throw_if (negb (truthy_opt id))
       (Error "Record must have __backendId to update") >>
     let* players := _getAllPlayers in
     let* index :=
       Array_findIndex players
         (λ p, let* pid := get p "__backendId" in ret (strict_eq pid id)) in
     throw_if (index =? -1) (Error "Record not found") >>
     let* players := Array_set players index (JObj (spread record)) in
     let* saved := _saveAllPlayers players in
     throw_if (negb saved) (Error "Failed to save to localStorage") >>
     notify this (ret players) >>
     ret (OfflineResult.ok undefined))
    (λ error, ret (OfflineResult.error error)).

Definition delete (this : t) (record : JSON) : M OfflineResult.t :=
  try_catch
    (throw_if (negb (initialized this))
       (Error "Storage not initialized. Call init() first.") >>
     let* id := get record "__backendId" in
     throw_if (negb (truthy_opt id))
       (Error "Record must have __backendId to delete") >>
     let* players := _getAllPlayers in
     let* filteredPlayers :=
       Array_filter players
         (λ p, let* pid := get p "__backendId" in ret (negb (strict_eq pid id))) in
     let* n := get players "length" in
     let* m := get filteredPlayers "length" in
     throw_if (strict_eq n m) (Error "Record not found") >>
     let* saved := _saveAllPlayers filteredPlayers in
     throw_if (negb saved) (Error "Failed to save to localStorage") >>
     notify this (ret filteredPlayers) >>
     ret (OfflineResult.ok undefined))
    (λ error, ret (OfflineResult.error error)).

(** With [window.DEBUG_MODE] set, [read] evaluates [players.length] for
    its log line.  The log lines of the other methods print a string or
    an identifier that is already at hand, and are left out. *)
Definition read (this : t) : M OfflineResult.t :=
  try_catch
    (throw_if (negb (initialized this))
       (Error "Storage not initialized. Call init() first.") >>
     let* players := _getAllPlayers in
     let* debug := window_DEBUG_MODE in
     when debug (get players "length" >> ret tt) >>
     ret (OfflineResult.ok (Some players)))
    (λ error, ret (OfflineResult.error error)).

Definition clearAll (this : t) : M bool :=
  try_catch
    (removeItem PLAYERS >>
     removeItem CURRENT_PLAYER >>
     _initializeStorage >>
     notify this (ret (JArr [])) >>
     ret true)
    (λ error, ret false).

(** [new Date().toISOString()] is [exportDate]; the result is the text,
    or [None] for the [null] returned on failure.  The literal ['{}']
    is the text of the empty object. *)
Definition exportData (this : t) (exportDate : string)
  : M (option text) :=
  try_catch
    (let* players := _getAllPlayers in
     let* stored := getItem SETTINGS in
     let* settings :=
       JSON_parse (match stored with
                   | Some d => if text_truthy stored then d else Serialized (JObj ∅)
                   | None => Serialized (JObj ∅)
                   end) in
     let data : gmap string JSON :=
       {[ "players" := players;
          "settings" := settings;
          "exportDate" := JStr exportDate ]} in
     ret (Some (JSON_stringify (JObj data))))
    (λ error, ret None).

(** The argument is a text, or [None] for [null], which [JSON.parse]
    converts to the text of [null]. *)
Definition importData (this : t) (jsonString : option text)
  : M bool :=
  try_catch
    (let* data := JSON_parse (default (Serialized JNull) jsonString) in
     let* players := get data "players" in
     when (truthy_opt players)
       (setItem PLAYERS (JSON_stringify (default JNull players))) >>
     let* settings := get data "settings" in
     when (truthy_opt settings)
       (setItem SETTINGS (JSON_stringify (default JNull settings))) >>
     notify this
       (let* players := get data "players" in
        ret (if truthy_opt players then default JNull players else JArr [])) >>
     ret true)
    (λ error, ret false).
End OfflineStorageService.

(** ** class StorageModeManager *)

(** [list.includes(v)] compares with SameValueZero, which on JSON values is
    strict equality. *)
Definition Array_includes (list : list JSON) (v : JSON) : bool :=
  existsb (λ x, strict_eq (Some x) (Some v)) list.

Module StorageModeManager.
Record t : Type := {
  mode : JSON;                               (* 'auto', 'online', 'offline' *)
  offlineService : OfflineStorageService.t;
  onlineAvailable : bool
}.

(** What [getActiveService] returns: the value of [window.dataSdk], or
    the manager's own offline service. *)
Inductive service : Type :=
| window_dataSdk_value (sdk : option JSON)
| this_offlineService (s : OfflineStorageService.t).

(** [constructor()] *)
Definition new : M t :=
  let* s := OfflineStorageService.new in
  ret {| mode := JStr "auto"; offlineService := s; onlineAvailable := false |}.

Definition getActiveService (this : t) : M service :=
  let* sdk := window_dataSdk in
  if strict_eq (Some (mode this)) (Some (JStr "online")) && truthy_opt sdk
  then ret (window_dataSdk_value sdk)
  else if strict_eq (Some (mode this)) (Some (JStr "auto")) && truthy_opt sdk
            && onlineAvailable this
  then ret (window_dataSdk_value sdk)
  else ret (this_offlineService (offlineService this)).

(** The manager after the call, and the returned boolean. *)
Definition setMode (this : t) (mode : JSON) : t * bool :=
  if Array_includes [JStr "auto"; JStr "online"; JStr "offline"] mode
  then ({| mode := mode; offlineService := offlineService this;
           onlineAvailable := onlineAvailable this |}, true)
  else (this, false).

Definition checkOnlineAvailability (this : t) : M (t * bool) :=
  let* sdk := window_dataSdk in
  let available := truthy_opt sdk in
  ret ({| mode := mode this; offlineService := offlineService this;
          onlineAvailable := available |}, available).
End StorageModeManager.

(** ** Vocabulary of the specification *)

Import STORAGE_KEYS.

(** The collection as every method sees it: the parsed players text, or
    the empty array when the key is missing, empty or does not parse. *)
Definition collection (w : Window) : JSON :=
  match localStorage w !! PLAYERS with
  | Some (Serialized v) => v
  | Some EmptyText | Some Malformed | None => JArr []
  end.

(** The settings as [exportData] reads them. *)
Definition settings_of (w : Window) : option JSON :=
  match localStorage w !! SETTINGS with
  | Some (Serialized v) => Some v
  | Some EmptyText | None => Some (JObj ∅)
  | Some Malformed => None
  end.

(** The identifier of an entry of the collection: its [__backendId]. *)
Definition identifier (p : JSON) : option JSON :=
  match p with
  | JObj o => o !! "__backendId"
  | _ => None
  end.

(** An identifier that can serve as a key: truthy and primitive. *)
Definition is_key (id : option JSON) : bool :=
  truthy_opt id && strict_eq id id.

Definition uniquely_identified (xs : list JSON) : Prop :=
  Forall (λ p, is_key (identifier p) = true) xs ∧ NoDup (identifier <$> xs).

(** No entry of the collection is [null]: the identifier of every entry
    can be read.  Every sequence of records satisfies this. *)
Definition no_null_entry (xs : list JSON) : bool :=
  forallb (λ p, match p with JNull => false | _ => true end) xs.

(** A well-formed collection: no entry is [null], and no entry carries
    a falsy value, such as the empty string, as its identifier.  Every
    sequence of records whose identifiers were generated by [create]
    satisfies this. *)
Definition record_like (p : JSON) : bool :=
  match p with
  | JNull => false
  | _ => match identifier p with
         | Some id => truthy id
         | None => true
         end
  end.

Definition well_formed (xs : list JSON) : bool := forallb record_like xs.

(** The host accepts every write. *)
Definition accepts_all (w : Window) : Prop :=
  ∀ m key value, quota w m key value = true.

(** The registered callback, if any, returns normally on every argument. *)
Definition quiet (this : OfflineStorageService.t) : Prop :=
  ∀ h f players,
    OfflineStorageService.dataHandler this = Some h →
    onDataChanged h = Some f →
    f players = None.

(** The submitted record carries no identifier, or one that no entry of
    the collection carries. *)
Definition carries (id : JSON) (p : JSON) : bool :=
  strict_eq (identifier p) (Some id).

Definition unknown (record : JSON) (w : Window) : bool :=
  match identifier record, collection w with
  | Some id, JArr xs => forallb (λ p, negb (carries id p)) xs
  | _, _ => true
  end.

(** The two ways in which the body of a call may end when the callback
    returns: thrown out of before anything was written, in the host [w] in
    which it started, or run to its end. *)
Definition aborts_or_completes (w : Window)
    (outcome : completion OfflineResult.t * Window) : Prop :=
  (∃ e, outcome = (Abrupt e, w))
  ∨ (∃ w', outcome = (Normal (OfflineResult.ok undefined), w')).

Ltac aborted := left; eexists; reflexivity.

(** *** Replaying calls on a collection

    The reference reading of create, update and delete as the
    specification words them, on a plain list of records. *)
Inductive call : Type :=
| Create (record : JSON) (now : Z) (random36 : string)
| Update (record : JSON)
| Delete (record : JSON).

Module Replay.
Definition matches (id : JSON) (p : JSON) : bool := carries id p.

(** Replace the matching entry, at its position, by [copy]. *)
Fixpoint replace_matching (id copy : JSON) (xs : list JSON) : list JSON :=
  match xs with
  | [] => []
  | p :: ps =>
      if matches id p then copy :: ps else p :: replace_matching id copy ps
  end.

(** Remove the matching entries. *)
Fixpoint remove_matching (id : JSON) (xs : list JSON) : list JSON :=
  match xs with
  | [] => []
  | p :: ps =>
      if matches id p then remove_matching id ps else p :: remove_matching id ps
  end.

(** The submitted record carrying the generated identifier. *)
Definition identified (record : JSON) (id : string) : JSON :=
  JObj (<["__backendId" := JStr id]> (spread record)).

Definition step (c : call) (xs : list JSON) : list JSON :=
  match c with
  | Create record now random36 =>
      xs ++ [identified record (OfflineStorageService._generateId now random36)]
  | Update record =>
      match identifier record with
      | Some id => replace_matching id record xs
      | None => xs
      end
  | Delete record =>
      match identifier record with
      | Some id => remove_matching id xs
      | None => xs
      end
  end.

Definition replay (cs : list call) (xs : list JSON) : list JSON :=
  foldl (λ acc c, step c acc) xs cs.

(** Every identifier a create generates is new to the collection it is
    added to. *)
Fixpoint fresh (cs : list call) (xs : list JSON) : Prop :=
  match cs with
  | [] => True
  | c :: cs' =>
      match c with
      | Create _ now random36 =>
          Some (JStr (OfflineStorageService._generateId now random36))
            ∉ identifier <$> xs
      | Update _ | Delete _ => True
      end ∧ fresh cs' (step c xs)
  end.
End Replay.

(** The calls as issued on a store instance. *)
Definition perform (this : OfflineStorageService.t) (c : call) : M OfflineResult.t :=
  match c with
  | Create record now random36 => OfflineStorageService.create this record now random36
  | Update record => OfflineStorageService.update this record
  | Delete record => OfflineStorageService.delete this record
  end.

Fixpoint perform_all (this : OfflineStorageService.t) (cs : list call)
  : M (list OfflineResult.t) :=
  match cs with
  | [] => ret []
  | c :: cs' =>
      let* r := perform this c in
      let* rs := perform_all this cs' in
      ret (r :: rs)
  end.

(** ** Concrete hosts and stores used in the examples *)

Module Examples.
(** A host whose storage holds an empty collection and empty settings,
    as left by the constructor on a fresh browser profile. *)
Definition fresh_window : Window :=
  {| localStorage :=
       {[ PLAYERS := Serialized (JArr []); SETTINGS := Serialized (JObj ∅) ]};
     quota := λ _ _ _, true;
     DEBUG_MODE := false;
     dataSdk := None;
     delivered := [] |}.

Definition listener : Handler := {| onDataChanged := Some (λ _, None) |}.

Definition uninitialized : OfflineStorageService.t :=
  {| OfflineStorageService.dataHandler := None;
     OfflineStorageService.initialized := false |}.

Definition ready : OfflineStorageService.t :=
  {| OfflineStorageService.dataHandler := Some listener;
     OfflineStorageService.initialized := true |}.

Definition player (name : string) : JSON := JObj {[ "name" := JStr name ]}.

Definition player_with_id (name id : string) : JSON :=
  JObj {[ "name" := JStr name; "__backendId" := JStr id ]}.

(** A host in which the players key holds the text [null] and the debug
    flag is set. *)
Definition null_players_debug : Window :=
  {| localStorage :=
       {[ PLAYERS := Serialized JNull; SETTINGS := Serialized (JObj ∅) ]};
     quota := λ _ _ _, true;
     DEBUG_MODE := true;
     dataSdk := None;
     delivered := [] |}.

(** A host whose settings text does not parse. *)
Definition corrupt_settings : Window :=
  {| localStorage :=
       {[ PLAYERS := Serialized (JArr [player_with_id "A" "x1"]);
          SETTINGS := Malformed ]};
     quota := λ _ _ _, true;
     DEBUG_MODE := false;
     dataSdk := None;
     delivered := [] |}.

(** A host that refuses every write. *)
Definition full_window : Window :=
  {| localStorage :=
       {[ PLAYERS := Serialized (JArr []); SETTINGS := Serialized (JObj ∅) ]};
     quota := λ _ _ _, false;
     DEBUG_MODE := false;
     dataSdk := None;
     delivered := [] |}.

(** The fresh host with the given entries as its collection. *)
Definition holding (xs : list JSON) : Window :=
  with_items (insert PLAYERS (Serialized (JArr xs))) fresh_window.

Definition manager : StorageModeManager.t :=
  {| StorageModeManager.mode := JStr "auto";
     StorageModeManager.offlineService := uninitialized;
     StorageModeManager.onlineAvailable := false |}.
End Examples.

(** ** getStats, getInfo and the globals of the module *)

Module Stats.
(** The object returned by [getStats].  [totalPlayers] is [players.length],
    which is [undefined] when the parsed players text has no length. *)
Record t : Type := {
  totalPlayers : option JSON;
  storageUsed : Z;
  isOnline : bool;
  mode : string
}.
End Stats.

(** [getStats()].  [Blob_size] gives the size in bytes of a text, for
    [new Blob([text]).size].  The method has no [try]: what
    [players.length] throws reaches the caller. *)
Definition getStats (this : OfflineStorageService.t) (Blob_size : text → Z)
  : M Stats.t :=
  let* players := OfflineStorageService._getAllPlayers in
  let* totalPlayers := get players "length" in
  ret {| Stats.totalPlayers := totalPlayers;
         Stats.storageUsed := Blob_size (JSON_stringify players);
         Stats.isOnline := false;
         Stats.mode := "offline" |}.

Module Info.
(** The object returned by [getInfo]. *)
Record t : Type := {
  mode : JSON;
  activeService : string;
  onlineAvailable : bool;
  stats : Stats.t
}.
End Info.

(** [getInfo()].  In [service === window.dataSdk] the service is either
    the value that [getActiveService] has just read from the binding, which
    is identical to it, or the manager's offline service, an object of the
    module that no value of the binding is. *)
Definition getInfo (this : StorageModeManager.t) (Blob_size : text → Z) : M Info.t :=
  let* service := StorageModeManager.getActiveService this in
  let activeService :=
    match service with
    | StorageModeManager.window_dataSdk_value _ => "online"
    | StorageModeManager.this_offlineService _ => "offline"
    end in
  let* stats := getStats (StorageModeManager.offlineService this) Blob_size in
  ret {| Info.mode := StorageModeManager.mode this;
         Info.activeService := activeService;
         Info.onlineAvailable := StorageModeManager.onlineAvailable this;
         Info.stats := stats |}.

(** The instances that the module creates when it is loaded and exposes
    as [window.offlineStorage] and [window.storageModeManager].  The manager
    builds an offline service of its own, so there are two service
    instances over the one [localStorage]. *)
Record Globals : Type := {
  offlineStorage : OfflineStorageService.t;
  storageModeManager : StorageModeManager.t
}.

Definition load : M Globals :=
  let* offlineStorage := OfflineStorageService.new in
  let* storageModeManager := StorageModeManager.new in
  ret {| offlineStorage := offlineStorage;
         storageModeManager := storageModeManager |}.


(** A handler with the given callback, and a store that has it registered. *)
Definition handler_of (f : JSON → option exn) : Handler :=
  {| onDataChanged := Some f |}.

Definition listening (this : OfflineStorageService.t) (f : JSON → option exn) : Prop :=
  OfflineStorageService.dataHandler this = Some (handler_of f).

(** A store without a callback to notify. *)
Definition silent (this : OfflineStorageService.t) : Prop :=
  match OfflineStorageService.dataHandler this with
  | Some h => onDataChanged h = None
  | None => True
  end.

(** The callback that a handler given to [init] brings, if any. *)
Definition callback_of (handler : option Handler) : option (JSON → option exn) :=
  match handler with
  | Some h => onDataChanged h
  | None => None
  end.

(** What a callback's completion makes of a call that has got as far as
    notifying. *)
Definition reported (completion : option exn) : OfflineResult.t :=
  match completion with
  | None => OfflineResult.ok undefined
  | Some e => OfflineResult.error e
  end.

(** A property of a parsed snapshot, as [importData] reads it. *)
Definition field (data : JSON) (key : string) : option JSON :=
  match data with
  | JObj o => o !! key
  | _ => None
  end.

(** The character ['_'], and the texts without it. *)
Definition underscore : Ascii.ascii :=
  Ascii.Ascii true true true true true false true false.

Fixpoint no_underscore (s : string) : bool :=
  match s with
  | EmptyString => true
  | String c s' => negb (Ascii.eqb c underscore) && no_underscore s'
  end.

(** The host after a call has saved [players] and notified the store's
    callback, if there is one, and what the call then returns. *)
Definition after_saving (this : OfflineStorageService.t) (players : JSON) (w : Window)
  : completion OfflineResult.t * Window :=
  let saved := with_items (insert PLAYERS (Serialized players)) w in
  match callback_of (OfflineStorageService.dataHandler this) with
  | Some f => (Normal (reported (f players)), with_delivery players saved)
  | None => (Normal (OfflineResult.ok undefined), saved)
  end.

(** The two ways in which the body of a call may end: thrown out of
    before anything was written, or gone through saving and notifying,
    where a throwing callback is still to be caught. *)
Definition aborts_or_saves (this : OfflineStorageService.t) (w : Window)
    (outcome : completion OfflineResult.t * Window) : Prop :=
  (∃ e, outcome = (Abrupt e, w))
  ∨ (∃ players,
       try_catch (λ _, outcome) (λ error, ret (OfflineResult.error error)) w
       = after_saving this players w).

(** The instances as the constructors leave them. *)
Definition new_service : OfflineStorageService.t :=
  {| OfflineStorageService.dataHandler := None;
     OfflineStorageService.initialized := false |}.

Definition new_manager : StorageModeManager.t :=
  {| StorageModeManager.mode := JStr "auto";
     StorageModeManager.offlineService := new_service;
     StorageModeManager.onlineAvailable := false |}.

(** * Properties *)

(** ** OfflineResult *)

(** C7.  On a failure result the [data] getter throws and the [error]
    getter returns the stored error; on a success result the [error]
    getter throws and the [data] getter returns the stored payload.  The
    results built by [ok] and [error] are a success and a failure carrying
    the given payload and error. *)
Theorem OfflineResult_getters (r : OfflineResult.t) :
  (OfflineResult.get_isError r = true →
     OfflineResult.get_data r = Abrupt (Error "Cannot access data on error result")
     ∧ OfflineResult.get_error r = Normal (OfflineResult._error r))
  ∧ (OfflineResult.get_isOk r = true →
     OfflineResult.get_error r = Abrupt (Error "Cannot access error on success result")
     ∧ OfflineResult.get_data r = Normal (OfflineResult._data r))
  ∧ (OfflineResult.get_isError r = negb (OfflineResult.get_isOk r))
  ∧ (∀ payload,
       OfflineResult.get_isOk (OfflineResult.ok payload) = true
       ∧ OfflineResult.get_data (OfflineResult.ok payload) = Normal payload)
  ∧ (∀ e,
       OfflineResult.get_isError (OfflineResult.error e) = true
       ∧ OfflineResult.get_error (OfflineResult.error e) = Normal (Some e)).
Proof.
  destruct r as [[] d e]; cbn; repeat split; intros; try discriminate; reflexivity.
Qed.

Lemma OfflineResult_getters_witness :
  OfflineResult.get_data (OfflineResult.error (Error "Record not found"))
    = Abrupt (Error "Cannot access data on error result")
  ∧ OfflineResult.get_error (OfflineResult.ok (Some (JArr [])))
    = Abrupt (Error "Cannot access error on success result").
Proof.
  split.
  - apply (OfflineResult_getters (OfflineResult.error (Error "Record not found"))).
    reflexivity.
  - apply (OfflineResult_getters (OfflineResult.ok (Some (JArr [])))).
    reflexivity.
Defined.

(** ** StorageModeManager *)

Lemma strict_eq_JStr (s : string) (v : JSON) :
  strict_eq (Some (JStr s)) (Some v) = true ↔ v = JStr s.
Proof.
  destruct v; cbn; try (split; [discriminate | congruence]).
  rewrite String.eqb_eq. split; congruence.
Qed.

Lemma Array_includes_elem_of (tokens : list string) (v : JSON) :
  Array_includes (JStr <$> tokens) v = true ↔ v ∈ JStr <$> tokens.
Proof.
  unfold Array_includes. induction tokens as [|s tokens IH].
  - split; [discriminate | intros H; inversion H].
  - rewrite fmap_cons. cbn [existsb].
    rewrite orb_true_iff, IH, strict_eq_JStr, elem_of_cons. tauto.
Qed.

(** C3, amended.  [setMode(value)] returns [true] and installs [value] as
    the mode exactly when [value] is one of the strings ['auto'],
    ['online'], ['offline']; on any other value it returns [false] and the
    manager is unchanged. *)
Theorem setMode_recognized_tokens (this : StorageModeManager.t) (value : JSON) :
  let tokens := [JStr "auto"; JStr "online"; JStr "offline"] in
  ((StorageModeManager.setMode this value).2 = true ↔ value ∈ tokens)
  ∧ (value ∈ tokens →
       StorageModeManager.mode (StorageModeManager.setMode this value).1 = value
       ∧ StorageModeManager.offlineService (StorageModeManager.setMode this value).1
         = StorageModeManager.offlineService this
       ∧ StorageModeManager.onlineAvailable (StorageModeManager.setMode this value).1
         = StorageModeManager.onlineAvailable this)
  ∧ (value ∉ tokens → StorageModeManager.setMode this value = (this, false)).
Proof.
  intros tokens.
  pose proof (Array_includes_elem_of ["auto"; "online"; "offline"]%string value) as Hin.
  change (JStr <$> _) with tokens in Hin.
  unfold StorageModeManager.setMode. fold tokens.
  destruct (Array_includes tokens value) eqn:E; cbn.
  - repeat split; tauto.
  - assert (Hnot : value ∉ tokens).
    { intros Hv. apply Hin in Hv. discriminate. }
    split; [split; [discriminate | contradiction] |].
    split; [contradiction | reflexivity].
Qed.

Lemma setMode_recognized_tokens_witness :
  StorageModeManager.mode
    (StorageModeManager.setMode Examples.manager (JStr "offline")).1 = JStr "offline"
  ∧ StorageModeManager.setMode Examples.manager (JStr "bogus")
    = (Examples.manager, false).
Proof.
  split.
  - apply (setMode_recognized_tokens Examples.manager (JStr "offline")).
    apply (Array_includes_elem_of ["auto"; "online"; "offline"]%string). reflexivity.
  - apply (setMode_recognized_tokens Examples.manager (JStr "bogus")).
    intros H. apply (Array_includes_elem_of ["auto"; "online"; "offline"]%string) in H.
    discriminate H.
Defined.

(** C3 as stated fails: the token [online-forced] is rejected and leaves
    the mode as it was, and so is [offline-forced]; the tokens that the
    code accepts for the two forced modes are [online] and [offline]. *)
Lemma setMode_online_forced_rejected :
  StorageModeManager.setMode Examples.manager (JStr "online-forced")
    = (Examples.manager, false)
  ∧ StorageModeManager.setMode Examples.manager (JStr "offline-forced")
    = (Examples.manager, false)
  ∧ (StorageModeManager.setMode Examples.manager (JStr "online")).2 = true.
Proof. repeat split. Qed.

(** C6.  [getActiveService] changes nothing in the host and returns the
    value of [window.dataSdk] when the mode is ['online'] and the binding
    is truthy, or when the mode is ['auto'], the binding is truthy and
    [onlineAvailable] is set; in every other case it returns the manager's
    offline service. *)
Theorem getActiveService_rule (this : StorageModeManager.t) (w : Window) :
  let present := truthy_opt (dataSdk w) in
  let remote := (Normal (StorageModeManager.window_dataSdk_value (dataSdk w)), w) in
  let offline :=
    (Normal (StorageModeManager.this_offlineService
               (StorageModeManager.offlineService this)), w) in
  (StorageModeManager.mode this = JStr "online" → present = true →
     StorageModeManager.getActiveService this w = remote)
  ∧ (StorageModeManager.mode this = JStr "auto" → present = true →
     StorageModeManager.onlineAvailable this = true →
     StorageModeManager.getActiveService this w = remote)
  ∧ (¬ (StorageModeManager.mode this = JStr "online" ∧ present = true) →
     ¬ (StorageModeManager.mode this = JStr "auto" ∧ present = true
        ∧ StorageModeManager.onlineAvailable this = true) →
     StorageModeManager.getActiveService this w = offline).
Proof.
  intros present remote offline.
  unfold StorageModeManager.getActiveService, bind, window_dataSdk, ret.
  fold present.
  pose proof (strict_eq_JStr "online" (StorageModeManager.mode this)) as Hon.
  pose proof (strict_eq_JStr "auto" (StorageModeManager.mode this)) as Hau.
  assert (Hsym : ∀ s, strict_eq (Some (StorageModeManager.mode this)) (Some (JStr s))
                      = strict_eq (Some (JStr s)) (Some (StorageModeManager.mode this))).
  { intros s. destruct (StorageModeManager.mode this); cbn; try reflexivity.
    apply String.eqb_sym. }
  rewrite !Hsym.
  destruct (strict_eq (Some (JStr "online")) _) eqn:E1,
           (strict_eq (Some (JStr "auto")) _) eqn:E2,
           present eqn:Ep,
           (StorageModeManager.onlineAvailable this) eqn:Ea; cbn;
    repeat split; intros; subst remote offline; try reflexivity;
    try discriminate;
    try (exfalso; intuition congruence).
Qed.

Lemma getActiveService_rule_witness :
  let sdk := Some (JObj ∅) in
  let w := {| localStorage := ∅; quota := λ _ _ _, true; DEBUG_MODE := false;
              dataSdk := sdk; delivered := [] |} in
  let forced := (StorageModeManager.setMode Examples.manager (JStr "online")).1 in
  StorageModeManager.getActiveService forced w
    = (Normal (StorageModeManager.window_dataSdk_value sdk), w)
  ∧ StorageModeManager.getActiveService Examples.manager w
    = (Normal (StorageModeManager.this_offlineService Examples.uninitialized), w).
Proof.
  intros sdk w forced. split.
  - destruct (getActiveService_rule forced w) as (Honline & _ & _).
    apply Honline; reflexivity.
  - destruct (getActiveService_rule Examples.manager w) as (_ & _ & Hoffline).
    apply Hoffline.
    + intros [H _]. discriminate H.
    + intros (_ & _ & H). discriminate H.
Defined.

(** ** Stepping through a computation *)

Lemma bind_run {A B} (m : M A) (k : A → M B) (w w1 : Window) (a : A) :
  m w = (Normal a, w1) → bind m k w = k a w1.
Proof. intros H. unfold bind. rewrite H. reflexivity. Qed.

Lemma bind_throws {A B} (m : M A) (k : A → M B) (w w1 : Window) (e : exn) :
  m w = (Abrupt e, w1) → bind m k w = (Abrupt e, w1).
Proof. intros H. unfold bind. rewrite H. reflexivity. Qed.

Lemma try_catch_run {A} (body : M A) (handler : exn → M A) (w w1 : Window) (a : A) :
  body w = (Normal a, w1) → try_catch body handler w = (Normal a, w1).
Proof. intros H. unfold try_catch. rewrite H. reflexivity. Qed.

Lemma try_catch_throws {A} (body : M A) (handler : exn → M A) (w w1 : Window) (e : exn) :
  body w = (Abrupt e, w1) → try_catch body handler w = handler e w1.
Proof. intros H. unfold try_catch. rewrite H. reflexivity. Qed.

(** ** OfflineStorageService: the building blocks *)

Lemma getAllPlayers_run (w : Window) :
  OfflineStorageService._getAllPlayers w = (Normal (collection w), w).
Proof.
  unfold OfflineStorageService._getAllPlayers, collection, try_catch, bind, getItem.
  destruct (localStorage w !! PLAYERS) as [[v| |]|]; reflexivity.
Qed.

Lemma saveAllPlayers_run (players : JSON) (w : Window) :
  OfflineStorageService._saveAllPlayers players w =
    if quota w (localStorage w) PLAYERS (Serialized players)
    then (Normal true, with_items (insert PLAYERS (Serialized players)) w)
    else (Normal false, w).
Proof.
  unfold OfflineStorageService._saveAllPlayers, try_catch, bind, setItem, JSON_stringify.
  destruct (quota w (localStorage w) PLAYERS (Serialized players)); reflexivity.
Qed.

(** Reading [__backendId] throws on [null] and gives the identifier of
    anything else. *)
Lemma get_backendId_run (p : JSON) (w : Window) :
  get p "__backendId" w =
    match p with
    | JNull => (Abrupt TypeError, w)
    | _ => (Normal (identifier p), w)
    end.
Proof. destruct p; reflexivity. Qed.

(** A notification touches nothing but the delivery log. *)
Lemma notify_items (this : OfflineStorageService.t) (players : JSON) (w : Window) :
  localStorage (OfflineStorageService.notify this (ret players) w).2 = localStorage w
  ∧ quota (OfflineStorageService.notify this (ret players) w).2 = quota w.
Proof.
  unfold OfflineStorageService.notify.
  destruct (OfflineStorageService.dataHandler this) as [[[f|]]|]; cbn; auto.
Qed.

Lemma notify_quiet (this : OfflineStorageService.t) (players : JSON) (w : Window) :
  quiet this →
  ∃ w', OfflineStorageService.notify this (ret players) w = (Normal tt, w')
        ∧ localStorage w' = localStorage w ∧ quota w' = quota w.
Proof.
  intros Hq. unfold OfflineStorageService.notify.
  destruct (OfflineStorageService.dataHandler this) as [[[f|]]|] eqn:Eh; cbn;
    try (eexists; repeat split; reflexivity).
  unfold call_onDataChanged. rewrite (Hq _ f players Eh eq_refl).
  eexists; repeat split; reflexivity.
Qed.

(** The CRUD methods catch whatever their body throws: they always return
    a result. *)
Lemma try_catch_returns {A} (body : M A) (g : exn → A) (w : Window) :
  ∃ a w', try_catch body (λ error, ret (g error)) w = (Normal a, w').
Proof.
  unfold try_catch, ret. destruct (body w) as [[a|e] w']; eauto.
Qed.

Lemma perform_returns (this : OfflineStorageService.t) (c : call) (w : Window) :
  ∃ r w', perform this c w = (Normal r, w').
Proof. destruct c; apply try_catch_returns. Qed.

(** [init] registers the handler and marks the store initialized, whether
    or not the first notification succeeds; it writes nothing. *)
Lemma init_run (this : OfflineStorageService.t) (handler : option Handler) (w : Window) :
  ∃ r w',
    OfflineStorageService.init this handler w
      = (Normal ({| OfflineStorageService.dataHandler := handler;
                    OfflineStorageService.initialized := true |}, r), w')
    ∧ localStorage w' = localStorage w
    ∧ quota w' = quota w.
Proof.
  unfold OfflineStorageService.init.
  set (this' := {| OfflineStorageService.dataHandler := handler;
                   OfflineStorageService.initialized := true |}).
  pose proof (notify_items this' (collection w) w) as [Hitems Hquota].
  unfold bind at 1, try_catch. erewrite bind_run by apply getAllPlayers_run.
  unfold bind at 1.
  destruct (OfflineStorageService.notify this' _ _) as [[[]|e] w'];
    cbn [snd] in Hitems, Hquota; eexists _, w'; repeat split; assumption.
Qed.

(** ** Calls before [init] *)

(** C2, amended.  On a store on which [init] has not been called, each of
    [create], [update], [delete] and [read] returns a failure result that
    carries the "not initialized" error, and changes nothing in the host.
    The maintenance methods [clearAll], [exportData] and [importData] do
    not consult the flag: each runs on such a store exactly as it does on
    the same store once initialized. *)
Theorem uninitialized_crud_fails
    (this : OfflineStorageService.t) (w : Window)
    (record : JSON) (now : Z) (random36 : string)
    (exportDate : string) (jsonString : option text) :
  OfflineStorageService.initialized this = false →
  let failure :=
    (Normal (OfflineResult.error (Error "Storage not initialized. Call init() first.")), w) in
  let initialized :=
    {| OfflineStorageService.dataHandler := OfflineStorageService.dataHandler this;
       OfflineStorageService.initialized := true |} in
  OfflineStorageService.create this record now random36 w = failure
  ∧ OfflineStorageService.update this record w = failure
  ∧ OfflineStorageService.delete this record w = failure
  ∧ OfflineStorageService.read this w = failure
  ∧ OfflineStorageService.clearAll this w = OfflineStorageService.clearAll initialized w
  ∧ OfflineStorageService.exportData this exportDate w
    = OfflineStorageService.exportData initialized exportDate w
  ∧ OfflineStorageService.importData this jsonString w
    = OfflineStorageService.importData initialized jsonString w.
Proof.
  intros Hinit failure initialized.
  unfold OfflineStorageService.create, OfflineStorageService.update,
    OfflineStorageService.delete, OfflineStorageService.read, try_catch, bind.
  rewrite Hinit. repeat split.
Qed.

Lemma uninitialized_crud_fails_witness :
  OfflineStorageService.read Examples.uninitialized Examples.fresh_window
  = (Normal (OfflineResult.error (Error "Storage not initialized. Call init() first.")),
     Examples.fresh_window).
Proof.
  apply (uninitialized_crud_fails Examples.uninitialized Examples.fresh_window
           JNull 0 ""%string ""%string None).
  reflexivity.
Defined.

(** C2 as stated fails for the maintenance methods, which carry no such
    guard: on a store that was never initialized, [clearAll] returns
    [true], [exportData] returns a snapshot and [importData] returns
    [true]. *)
Lemma uninitialized_maintenance_succeeds :
  OfflineStorageService.initialized Examples.uninitialized = false
  ∧ (OfflineStorageService.clearAll Examples.uninitialized Examples.fresh_window).1
    = Normal true
  ∧ (OfflineStorageService.exportData Examples.uninitialized "2024-01-01T00:00:00.000Z"
       Examples.fresh_window).1
    = Normal (Some (Serialized (JObj {[ "players" := JArr [];
                                         "settings" := JObj ∅;
                                         "exportDate" := JStr "2024-01-01T00:00:00.000Z" ]})))
  ∧ (OfflineStorageService.importData Examples.uninitialized
       (Some (Serialized (JObj {[ "players" := JArr [Examples.player "A"] ]})))
       Examples.fresh_window).1
    = Normal true.
Proof. repeat split. Qed.

(** ** Unknown identifiers *)

Lemma findIndex_from_none (f : JSON → M bool) (xs : list JSON) (i : Z) (w : Window) :
  (∀ p, p ∈ xs → f p w = (Normal false, w) ∨ ∃ e, f p w = (Abrupt e, w)) →
  findIndex_from f xs i w = (Normal (-1), w)
  ∨ ∃ e, findIndex_from f xs i w = (Abrupt e, w).
Proof.
  revert i. induction xs as [|x xs IH]; intros i Hf; cbn.
  - left. reflexivity.
  - unfold bind. destruct (Hf x) as [Hx|[e Hx]]; [left | | ]; rewrite Hx.
    + apply IH. intros p Hp. apply Hf. right. exact Hp.
    + right. eauto.
Qed.

Lemma filter_list_all (f : JSON → M bool) (xs : list JSON) (w : Window) :
  (∀ p, p ∈ xs → f p w = (Normal true, w) ∨ ∃ e, f p w = (Abrupt e, w)) →
  filter_list f xs w = (Normal xs, w)
  ∨ ∃ e, filter_list f xs w = (Abrupt e, w).
Proof.
  induction xs as [|x xs IH]; intros Hf; cbn.
  - left. reflexivity.
  - unfold bind. destruct (Hf x) as [Hx|[e Hx]]; [left | | ]; rewrite Hx.
    + destruct IH as [IH|[e IH]].
      * intros p Hp. apply Hf. right. exact Hp.
      * left. rewrite IH. reflexivity.
      * right. rewrite IH. eauto.
    + right. eauto.
Qed.

(** The test that [update] applies to an entry, on an entry that does not
    carry the identifier. *)
Lemma same_id_test_no_match (id p : JSON) (w : Window) :
  carries id p = false →
  let test := (let* pid := get p "__backendId" in ret (strict_eq pid (Some id))) in
  test w = (Normal false, w) ∨ ∃ e, test w = (Abrupt e, w).
Proof.
  intros Hm test. subst test. unfold bind. rewrite get_backendId_run.
  destruct p; try (left; unfold ret; cbn; reflexivity);
    try solve [right; eexists; reflexivity].
  left. unfold ret. unfold carries in Hm. rewrite Hm. reflexivity.
Qed.

Lemma other_id_test_no_match (id p : JSON) (w : Window) :
  carries id p = false →
  let test := (let* pid := get p "__backendId" in ret (negb (strict_eq pid (Some id)))) in
  test w = (Normal true, w) ∨ ∃ e, test w = (Abrupt e, w).
Proof.
  intros Hm test. subst test. unfold bind. rewrite get_backendId_run.
  destruct p; try (left; unfold ret; cbn; reflexivity);
    try solve [right; eexists; reflexivity].
  left. unfold ret. unfold carries in Hm. rewrite Hm. reflexivity.
Qed.

(** C4.  When the submitted record carries no identifier, or an
    identifier that no entry of the collection carries, [update] and
    [delete] each return a failure result and leave the host as it was:
    nothing is written and no notification is delivered. *)
Theorem unknown_identifier_fails
    (this : OfflineStorageService.t) (record : JSON) (w : Window) :
  unknown record w = true →
  (∃ e, OfflineStorageService.update this record w = (Normal (OfflineResult.error e), w))
  ∧ (∃ e, OfflineStorageService.delete this record w = (Normal (OfflineResult.error e), w)).
Proof.
  intros Hunknown.
  assert (Hno : ∀ o id xs p, record = JObj o → o !! "__backendId" = Some id →
                  collection w = JArr xs → p ∈ xs → carries id p = false).
  { intros o id xs p -> Eid Ec Hp. unfold unknown in Hunknown.
    cbn [identifier] in Hunknown. rewrite Eid, Ec in Hunknown.
    rewrite forallb_forall in Hunknown.
    apply negb_true_iff, Hunknown, list_elem_of_In, Hp. }
  unfold OfflineStorageService.update, OfflineStorageService.delete, try_catch.
  split.
  - unfold bind at 1. destruct (OfflineStorageService.initialized this); cbn [negb throw_if];
      [|eexists; reflexivity].
    unfold ret at 1. unfold bind at 1. rewrite get_backendId_run.
    destruct record; try (eexists; reflexivity).
    cbn [identifier]. unfold bind at 1.
    destruct (o !! "__backendId") as [id|] eqn:Eid; [|eexists; reflexivity].
    cbn [truthy_opt]. destruct (truthy id) eqn:Et; [|eexists; reflexivity].
    cbn [negb throw_if]. unfold ret at 1. unfold bind at 1.
    rewrite getAllPlayers_run. unfold bind at 1.
    destruct (collection w) as [| | | |xs|] eqn:Ec; try (eexists; reflexivity).
    cbn [Array_findIndex].
    destruct (findIndex_from_none
                (λ p, let* pid := get p "__backendId" in ret (strict_eq pid (Some id)))
                xs 0 w) as [Hr|[e Hr]].
    + intros p Hp. apply same_id_test_no_match.
      apply (Hno o id xs p eq_refl Eid eq_refl Hp).
    + rewrite Hr. eexists; reflexivity.
    + rewrite Hr. eexists; reflexivity.
  - unfold bind at 1. destruct (OfflineStorageService.initialized this); cbn [negb throw_if];
      [|eexists; reflexivity].
    unfold ret at 1. unfold bind at 1. rewrite get_backendId_run.
    destruct record; try (eexists; reflexivity).
    cbn [identifier]. unfold bind at 1.
    destruct (o !! "__backendId") as [id|] eqn:Eid; [|eexists; reflexivity].
    cbn [truthy_opt]. destruct (truthy id) eqn:Et; [|eexists; reflexivity].
    cbn [negb throw_if]. unfold ret at 1. unfold bind at 1.
    rewrite getAllPlayers_run. unfold bind at 1.
    destruct (collection w) as [| | | |xs|] eqn:Ec; try (eexists; reflexivity).
    cbn [Array_filter]. unfold bind at 1.
    destruct (filter_list_all
                (λ p, let* pid := get p "__backendId" in ret (negb (strict_eq pid (Some id))))
                xs w) as [Hr|[e Hr]].
    + intros p Hp. apply other_id_test_no_match.
      apply (Hno o id xs p eq_refl Eid eq_refl Hp).
    + rewrite Hr. cbn. rewrite Z.eqb_refl. eexists; reflexivity.
    + rewrite Hr. eexists; reflexivity.
Qed.

Lemma unknown_identifier_fails_witness :
  let w := with_items (insert PLAYERS (Serialized (JArr [Examples.player_with_id "A" "x1"])))
             Examples.fresh_window in
  (∃ e, OfflineStorageService.update Examples.ready (Examples.player_with_id "B" "x2") w
        = (Normal (OfflineResult.error e), w))
  ∧ (∃ e, OfflineStorageService.delete Examples.ready (Examples.player "B") w
        = (Normal (OfflineResult.error e), w)).
Proof.
  intros w. split.
  - apply (unknown_identifier_fails Examples.ready (Examples.player_with_id "B" "x2") w).
    vm_compute. reflexivity.
  - apply (unknown_identifier_fails Examples.ready (Examples.player "B") w).
    vm_compute. reflexivity.
Defined.

(** ** read *)

(** On an initialized store [read] returns the collection as a success
    payload and changes nothing, unless the debug flag is set and the
    players text is the text of [null]. *)
Lemma read_succeeds (this : OfflineStorageService.t) (w : Window) :
  OfflineStorageService.initialized this = true →
  DEBUG_MODE w = false ∨ collection w ≠ JNull →
  OfflineStorageService.read this w
  = (Normal (OfflineResult.ok (Some (collection w))), w).
Proof.
  intros Hinit Hsafe.
  unfold OfflineStorageService.read, try_catch, bind at 1. rewrite Hinit.
  cbn [negb throw_if]. unfold ret at 1. unfold bind at 1.
  rewrite getAllPlayers_run. unfold bind at 1, window_DEBUG_MODE.
  destruct (DEBUG_MODE w); [|reflexivity].
  destruct Hsafe as [Hd|Hnull]; [discriminate|].
  destruct (collection w); try reflexivity. contradiction.
Qed.

(** C10 fails on the code at this input.  [init] succeeds on a host whose
    players text is the text of [null]; with the debug flag set, the
    following [read] returns a failure result carrying the TypeError that
    the log line raises on [players.length], while the same call with the
    flag cleared returns a success. *)
Theorem read_fails_on_null_with_debug :
  let w := Examples.null_players_debug in
  let '(initialized, w1) :=
    OfflineStorageService.init Examples.uninitialized (Some Examples.listener) w in
  initialized = Normal (Examples.ready, OfflineResult.ok undefined)
  ∧ OfflineStorageService.read Examples.ready w1
    = (Normal (OfflineResult.error TypeError), w1)
  ∧ OfflineStorageService.read Examples.ready
      {| localStorage := localStorage w1; quota := quota w1; DEBUG_MODE := false;
         dataSdk := dataSdk w1; delivered := delivered w1 |}
    = (Normal (OfflineResult.ok (Some JNull)),
       {| localStorage := localStorage w1; quota := quota w1; DEBUG_MODE := false;
          dataSdk := dataSdk w1; delivered := delivered w1 |}).
Proof. cbv zeta. vm_compute. repeat split. Qed.

(** ** create *)

(** The course of a [create] call. *)
Lemma create_run
    (this : OfflineStorageService.t) (record : JSON) (now : Z) (random36 : string)
    (w : Window) :
  OfflineStorageService.create this record now random36 w =
    if OfflineStorageService.initialized this then
      match collection w with
      | JArr xs =>
          let players :=
            JArr (xs ++ [Replay.identified record
                           (OfflineStorageService._generateId now random36)]) in
          if quota w (localStorage w) PLAYERS (Serialized players) then
            match OfflineStorageService.notify this (ret players)
                    (with_items (insert PLAYERS (Serialized players)) w) with
            | (Normal _, w') => (Normal (OfflineResult.ok undefined), w')
            | (Abrupt e, w') => (Normal (OfflineResult.error e), w')
            end
          else (Normal (OfflineResult.error (Error "Failed to save to localStorage")), w)
      | _ => (Normal (OfflineResult.error TypeError), w)
      end
    else (Normal (OfflineResult.error
                    (Error "Storage not initialized. Call init() first.")), w).
Proof.
  unfold OfflineStorageService.create, try_catch, bind at 1.
  destruct (OfflineStorageService.initialized this); cbn [negb throw_if]; [|reflexivity].
  unfold ret at 1. unfold bind at 1. rewrite getAllPlayers_run.
  destruct (collection w) as [| | | |xs|]; try reflexivity.
  unfold bind at 1. cbn [Array_push]. unfold ret at 1.
  unfold bind at 1. rewrite saveAllPlayers_run.
  unfold Replay.identified. cbv zeta.
  destruct (quota w (localStorage w) PLAYERS _); [|reflexivity].
  cbn [negb throw_if]. unfold bind at 1. unfold ret at 1. unfold bind at 1.
  destruct (OfflineStorageService.notify this _ _) as [[[]|e] w']; reflexivity.
Qed.

(** C9.  The record that [create] stores is the submitted record's own
    properties with [__backendId] set to the generated identifier,
    whatever the submitted record carried under that name.  A call either
    fails before writing, leaving the host as it was, or writes the
    collection with exactly that record appended. *)
Theorem create_stores_generated_id
    (this : OfflineStorageService.t) (record : JSON) (now : Z) (random36 : string)
    (w : Window) :
  let id := OfflineStorageService._generateId now random36 in
  let stored := <["__backendId" := JStr id]> (spread record) in
  identifier (JObj stored) = Some (JStr id)
  ∧ (∀ key, key ≠ "__backendId"%string → stored !! key = spread record !! key)
  ∧ ((∃ e, OfflineStorageService.create this record now random36 w
           = (Normal (OfflineResult.error e), w))
     ∨ (∃ xs r w',
          OfflineStorageService.create this record now random36 w = (Normal r, w')
          ∧ collection w = JArr xs
          ∧ localStorage w'
            = <[PLAYERS := Serialized (JArr (xs ++ [JObj stored]))]> (localStorage w))).
Proof.
  intros id stored. split; [|split].
  - apply lookup_insert_eq.
  - intros key Hkey. apply lookup_insert_ne. congruence.
  - rewrite create_run.
    destruct (OfflineStorageService.initialized this); [|left; eexists; reflexivity].
    destruct (collection w) as [| | | |xs|];
      try (left; eexists; reflexivity).
    cbv zeta. unfold Replay.identified. fold id. fold stored.
    destruct (quota w (localStorage w) PLAYERS _); [|left; eexists; reflexivity].
    right.
    pose proof (notify_items this (JArr (xs ++ [JObj stored]))
                  (with_items (insert PLAYERS (Serialized (JArr (xs ++ [JObj stored])))) w))
      as [Hitems _].
    destruct (OfflineStorageService.notify this _ _) as [[[]|e] w'];
      cbn in Hitems; eexists xs, _, w'; repeat split; exact Hitems.
Qed.

(** A caller-supplied identifier is replaced: the stored record carries
    the generated one. *)
Lemma create_stores_generated_id_witness :
  let submitted := Examples.player_with_id "A" "mine" in
  let w' := (OfflineStorageService.create Examples.ready submitted
               1700000000000 "0.4fzyo82mvyr" Examples.fresh_window).2 in
  identifier submitted = Some (JStr "mine")
  ∧ identifier
      (JObj (<["__backendId" := JStr (OfflineStorageService._generateId
                                        1700000000000 "0.4fzyo82mvyr")]>
               (spread submitted)))
    = Some (JStr "offline_1700000000000_4fzyo82mv")
  ∧ collection w' = JArr [Examples.player_with_id "A" "offline_1700000000000_4fzyo82mv"].
Proof.
  intros submitted w'. split; [reflexivity|]. split.
  - rewrite (proj1 (create_stores_generated_id Examples.ready submitted
                      1700000000000 "0.4fzyo82mvyr" Examples.fresh_window)).
    vm_compute. reflexivity.
  - vm_compute. reflexivity.
Defined.

(** ** clearAll *)

Lemma keys_distinct :
  PLAYERS ≠ CURRENT_PLAYER ∧ PLAYERS ≠ SETTINGS ∧ CURRENT_PLAYER ≠ SETTINGS.
Proof. repeat split; discriminate. Qed.

(** The course of [_initializeStorage]: each of the two keys is written
    only when it is missing or empty. *)
Lemma initializeStorage_run (w : Window) :
  OfflineStorageService._initializeStorage w =
    let settings_step (w : Window) :=
      if text_truthy (localStorage w !! SETTINGS)
      then (Normal tt, w)
      else setItem SETTINGS (Serialized (JObj ∅)) w in
    if text_truthy (localStorage w !! PLAYERS)
    then settings_step w
    else if quota w (localStorage w) PLAYERS (Serialized (JArr []))
         then settings_step (with_items (insert PLAYERS (Serialized (JArr []))) w)
         else (Abrupt QuotaExceededError, w).
Proof.
  unfold OfflineStorageService._initializeStorage, bind, getItem, when, setItem, ret,
    JSON_stringify.
  destruct (text_truthy (localStorage w !! PLAYERS)); cbn [negb].
  - destruct (text_truthy (localStorage w !! SETTINGS)); reflexivity.
  - destruct (quota w (localStorage w) PLAYERS (Serialized (JArr []))); [|reflexivity].
    destruct (text_truthy (localStorage (with_items _ w) !! SETTINGS)); reflexivity.
Qed.

(** C8.  When the settings key holds a non-empty text, [clearAll] leaves
    it unchanged, as it does every key other than the players and the
    current-player keys.  The current-player key is removed, and the
    players key holds the empty collection afterwards, provided the host
    accepts that write. *)
Theorem clearAll_frame (this : OfflineStorageService.t) (w : Window) :
  text_truthy (localStorage w !! SETTINGS) = true →
  let w' := (OfflineStorageService.clearAll this w).2 in
  let removed := delete CURRENT_PLAYER (delete PLAYERS (localStorage w)) in
  localStorage w' !! SETTINGS = localStorage w !! SETTINGS
  ∧ (∀ key, key ≠ PLAYERS → key ≠ CURRENT_PLAYER →
       localStorage w' !! key = localStorage w !! key)
  ∧ localStorage w' !! CURRENT_PLAYER = None
  ∧ localStorage w' !! PLAYERS =
      if quota w removed PLAYERS (Serialized (JArr []))
      then Some (Serialized (JArr []))
      else None.
Proof.
  intros Hsettings w' removed.
  destruct keys_distinct as (Hpc & Hps & Hcs).
  assert (Hremoved : ∀ key, key ≠ PLAYERS → key ≠ CURRENT_PLAYER →
            removed !! key = localStorage w !! key).
  { intros key H1 H2. subst removed. rewrite !lookup_delete_ne; done. }
  assert (Hitems : localStorage w' =
            if quota w removed PLAYERS (Serialized (JArr []))
            then <[PLAYERS := Serialized (JArr [])]> removed
            else removed).
  { subst w'. unfold OfflineStorageService.clearAll, try_catch.
    unfold bind at 1, removeItem at 1. unfold bind at 1, removeItem at 1.
    unfold bind at 1. rewrite initializeStorage_run.
    cbn [localStorage with_items quota]. fold removed. cbv zeta.
    replace (removed !! PLAYERS) with (@None text)
      by (subst removed; rewrite lookup_delete_ne, lookup_delete_eq; done).
    cbn [text_truthy].
    destruct (quota w removed PLAYERS (Serialized (JArr []))); [|reflexivity].
    cbn [localStorage with_items].
    rewrite lookup_insert_ne, Hremoved, Hsettings by done.
    unfold bind at 1.
    match goal with
    | |- context [OfflineStorageService.notify this (ret ?v) ?x] =>
        pose proof (notify_items this v x) as [Hn _];
        destruct (OfflineStorageService.notify this (ret v) x) as [[[]|e] w1]
    end; exact Hn. }
  rewrite Hitems.
  destruct (quota w removed PLAYERS (Serialized (JArr []))).
  - split; [|split; [|split]].
    + rewrite lookup_insert_ne by done. apply Hremoved; done.
    + intros key H1 H2. rewrite lookup_insert_ne by done. apply Hremoved; done.
    + rewrite lookup_insert_ne by done. subst removed. apply lookup_delete_eq.
    + apply lookup_insert_eq.
  - split; [|split; [|split]].
    + apply Hremoved; done.
    + apply Hremoved.
    + subst removed. apply lookup_delete_eq.
    + subst removed. rewrite lookup_delete_ne, lookup_delete_eq; done.
Qed.

(** The other case of the re-initialization: when the settings key is
    missing or empty and the host accepts writes, [clearAll] leaves the
    text of the empty object under it. *)
Lemma clearAll_creates_missing_settings (this : OfflineStorageService.t) (w : Window) :
  text_truthy (localStorage w !! SETTINGS) = false →
  accepts_all w →
  localStorage (OfflineStorageService.clearAll this w).2 !! SETTINGS
  = Some (Serialized (JObj ∅)).
Proof.
  intros Hsettings Hacc. destruct keys_distinct as (Hpc & Hps & Hcs).
  set (removed := delete CURRENT_PLAYER (delete PLAYERS (localStorage w))).
  unfold OfflineStorageService.clearAll, try_catch.
  unfold bind at 1, removeItem at 1. unfold bind at 1, removeItem at 1.
  unfold bind at 1. rewrite initializeStorage_run.
  cbn [localStorage with_items quota]. fold removed. cbv zeta.
  replace (removed !! PLAYERS) with (@None text)
    by (subst removed; rewrite lookup_delete_ne, lookup_delete_eq; done).
  cbn [text_truthy]. rewrite Hacc. cbn [localStorage with_items].
  replace (<[PLAYERS:=Serialized (JArr [])]> removed !! SETTINGS)
    with (localStorage w !! SETTINGS)
    by (subst removed; rewrite lookup_insert_ne, !lookup_delete_ne; done).
  rewrite Hsettings. unfold setItem. cbn [localStorage with_items quota].
  rewrite Hacc. unfold bind at 1.
  match goal with
  | |- context [OfflineStorageService.notify this (ret ?v) ?x] =>
      pose proof (notify_items this v x) as [Hn _];
      destruct (OfflineStorageService.notify this (ret v) x) as [[[]|e] w1]
  end; unfold ret; cbn [snd] in *; rewrite Hn; apply lookup_insert_eq.
Qed.

Lemma clearAll_frame_witness :
  let w := with_items (insert SETTINGS (Serialized (JObj {[ "theme" := JStr "dark" ]})))
             (with_items (insert CURRENT_PLAYER (Serialized (Examples.player "A")))
                (with_items (insert PLAYERS (Serialized (JArr [Examples.player "A"])))
                   Examples.fresh_window)) in
  let w' := (OfflineStorageService.clearAll Examples.ready w).2 in
  localStorage w' !! SETTINGS = Some (Serialized (JObj {[ "theme" := JStr "dark" ]}))
  ∧ localStorage w' !! CURRENT_PLAYER = None
  ∧ localStorage w' !! PLAYERS = Some (Serialized (JArr [])).
Proof.
  intros w w'.
  destruct (clearAll_frame Examples.ready w) as (Hs & _ & Hc & Hp).
  - vm_compute. reflexivity.
  - subst w'. split; [|split].
    + rewrite Hs. vm_compute. reflexivity.
    + exact Hc.
    + exact Hp.
Defined.

(** ** exportData and importData *)

Lemma notify_pure_quiet
    (this : OfflineStorageService.t) (argument : M JSON) (players : JSON) (w : Window) :
  (∀ w, argument w = (Normal players, w)) →
  quiet this →
  ∃ w', OfflineStorageService.notify this argument w = (Normal tt, w')
        ∧ localStorage w' = localStorage w ∧ quota w' = quota w.
Proof.
  intros Harg Hq. unfold OfflineStorageService.notify.
  destruct (OfflineStorageService.dataHandler this) as [[[f|]]|] eqn:Eh;
    try (eexists; repeat split; reflexivity).
  cbn [onDataChanged]. unfold bind. rewrite Harg. unfold call_onDataChanged.
  rewrite (Hq _ f players Eh eq_refl).
  eexists; repeat split; reflexivity.
Qed.

(** The snapshot that [exportData] returns: [null] when the settings text
    does not parse. *)
Lemma exportData_run (this : OfflineStorageService.t) (exportDate : string) (w : Window) :
  OfflineStorageService.exportData this exportDate w =
    (Normal
       (match settings_of w with
        | Some settings =>
            Some (Serialized (JObj {[ "players" := collection w;
                                       "settings" := settings;
                                       "exportDate" := JStr exportDate ]}))
        | None => None
        end), w).
Proof.
  unfold OfflineStorageService.exportData, try_catch, bind at 1.
  rewrite getAllPlayers_run. unfold bind, getItem, settings_of, JSON_stringify.
  destruct (localStorage w !! SETTINGS) as [[v| |]|]; reflexivity.
Qed.

(** Importing an object snapshot into a host that accepts writes, with a
    callback that returns: each of the two keys is replaced when the
    snapshot's field is truthy, and kept otherwise. *)
Lemma importData_run
    (this : OfflineStorageService.t) (data : gmap string JSON) (w : Window) :
  accepts_all w →
  quiet this →
  ∃ w',
    OfflineStorageService.importData this (Some (Serialized (JObj data))) w
      = (Normal true, w')
    ∧ collection w' =
        (if truthy_opt (data !! "players")
         then default JNull (data !! "players") else collection w)
    ∧ settings_of w' =
        (if truthy_opt (data !! "settings")
         then data !! "settings" else settings_of w).
Proof.
  intros Hacc Hq. destruct keys_distinct as (Hpc & Hps & Hcs).
  set (players := data !! "players"). set (settings := data !! "settings").
  set (w1 := if truthy_opt players
             then with_items (insert PLAYERS (Serialized (default JNull players))) w
             else w).
  assert (H1 : when (truthy_opt players)
                 (setItem PLAYERS (JSON_stringify (default JNull players))) w
               = (Normal tt, w1)).
  { subst w1. destruct (truthy_opt players); [|reflexivity].
    unfold when, setItem. rewrite Hacc. reflexivity. }
  assert (Hacc1 : accepts_all w1).
  { subst w1. destruct (truthy_opt players); exact Hacc. }
  set (w2 := if truthy_opt settings
             then with_items (insert SETTINGS (Serialized (default JNull settings))) w1
             else w1).
  assert (H2 : when (truthy_opt settings)
                 (setItem SETTINGS (JSON_stringify (default JNull settings))) w1
               = (Normal tt, w2)).
  { subst w2. destruct (truthy_opt settings); [|reflexivity].
    unfold when, setItem. rewrite Hacc1. reflexivity. }
  destruct (notify_pure_quiet this
              (let* players := get (JObj data) "players" in
               ret (if truthy_opt players then default JNull players else JArr []))
              (if truthy_opt players then default JNull players else JArr [])
              w2 (λ _, eq_refl) Hq) as (w' & Hn & Hitems & _).
  exists w'. split.
  - unfold OfflineStorageService.importData. apply try_catch_run.
    erewrite bind_run by reflexivity.
    erewrite bind_run by reflexivity.
    erewrite bind_run by exact H1.
    erewrite bind_run by reflexivity.
    erewrite bind_run by exact H2.
    erewrite bind_run by exact Hn.
    reflexivity.
  - unfold collection, settings_of. rewrite Hitems. subst w2 w1.
    destruct (truthy_opt players) eqn:Ep, (truthy_opt settings) eqn:Es;
      cbn [localStorage with_items];
      rewrite ?lookup_insert_eq, ?(lookup_insert_ne _ SETTINGS PLAYERS),
              ?(lookup_insert_ne _ PLAYERS SETTINGS), ?lookup_insert_eq by done;
      split; try reflexivity.
    + destruct settings; [reflexivity|discriminate].
    + destruct settings; [reflexivity|discriminate].
Qed.

(** The snapshot of one store restores another: importing it into any
    host that accepts writes replaces that host's collection by the
    exported one when the exported collection is truthy, as every array
    is, and its settings by the exported ones when those are truthy. *)
Lemma import_restores_export
    (source target : OfflineStorageService.t) (exportDate : string)
    (w1 w2 : Window) (snapshot : text) :
  OfflineStorageService.exportData source exportDate w1 = (Normal (Some snapshot), w1) →
  accepts_all w2 →
  quiet target →
  ∃ w2',
    OfflineStorageService.importData target (Some snapshot) w2 = (Normal true, w2')
    ∧ (truthy (collection w1) = true → collection w2' = collection w1)
    ∧ (truthy_opt (settings_of w1) = true → settings_of w2' = settings_of w1).
Proof.
  intros Hexport Hacc Hq. rewrite exportData_run in Hexport.
  destruct (settings_of w1) as [settings|] eqn:Es; [|discriminate].
  injection Hexport as <-.
  set (data := ({[ "players" := collection w1; "settings" := settings;
                   "exportDate" := JStr exportDate ]} : gmap string JSON)).
  destruct (importData_run target data w2 Hacc Hq) as (w2' & Hrun & Hc & Hs).
  assert (Hp : data !! "players" = Some (collection w1)) by reflexivity.
  assert (Hse : data !! "settings" = Some settings) by reflexivity.
  rewrite Hp in Hc. rewrite Hse in Hs. cbn [truthy_opt default] in Hc, Hs.
  exists w2'. split; [exact Hrun|]. split.
  - intros Ht. rewrite Ht in Hc. exact Hc.
  - cbn [truthy_opt]. intros Ht. rewrite Ht in Hs. exact Hs.
Qed.

(** C5, amended.  When the settings text of the exporting store is
    missing, empty or parses to a truthy value, as every object is, and its
    collection is truthy, as every array is, [exportData] returns a
    snapshot and leaves the store as it is; and importing that snapshot
    into a host that accepts writes, on a store whose callback returns,
    whatever that host holds at the time, returns [true] and restores the
    exported collection and the exported settings. *)
Theorem export_import_round_trip
    (source target : OfflineStorageService.t) (exportDate : string)
    (w1 w2 : Window) (settings : JSON) :
  settings_of w1 = Some settings →
  truthy settings = true →
  truthy (collection w1) = true →
  accepts_all w2 →
  quiet target →
  ∃ snapshot w2',
    OfflineStorageService.exportData source exportDate w1 = (Normal (Some snapshot), w1)
    ∧ OfflineStorageService.importData target (Some snapshot) w2 = (Normal true, w2')
    ∧ collection w2' = collection w1
    ∧ settings_of w2' = Some settings.
Proof.
  intros Hs Hts Htc Hacc Hq.
  pose proof (exportData_run source exportDate w1) as Hexport. rewrite Hs in Hexport.
  destruct (import_restores_export source target exportDate w1 w2 _ Hexport Hacc Hq)
    as (w2' & Hrun & Hc & Hse).
  eexists; exists w2'. split; [exact Hexport|]. split; [exact Hrun|].
  split; [exact (Hc Htc)|].
  rewrite <- Hs. apply Hse. rewrite Hs. exact Hts.
Qed.

Lemma export_import_round_trip_witness :
  let dark := JObj {[ "theme" := JStr "dark" ]} in
  let w1 := with_items (insert SETTINGS (Serialized dark))
              (Examples.holding [Examples.player_with_id "A" "x1"]) in
  let w2 := Examples.holding [Examples.player_with_id "B" "x2"] in
  ∃ snapshot w2',
    OfflineStorageService.exportData Examples.ready "2024-01-01T00:00:00.000Z" w1
      = (Normal (Some snapshot), w1)
    ∧ OfflineStorageService.importData Examples.ready (Some snapshot) w2
      = (Normal true, w2')
    ∧ collection w2' = JArr [Examples.player_with_id "A" "x1"]
    ∧ settings_of w2' = Some dark.
Proof.
  intros dark w1 w2.
  apply (export_import_round_trip Examples.ready Examples.ready
           "2024-01-01T00:00:00.000Z" w1 w2 dark).
  - reflexivity.
  - reflexivity.
  - reflexivity.
  - intros m key value. reflexivity.
  - intros h f players Hh Hf. vm_compute in Hh. injection Hh as <-.
    vm_compute in Hf. injection Hf as <-. reflexivity.
Defined.

(** C5 as stated fails.  On a host whose settings text does not parse,
    [exportData] returns [null], and [importData] of that returns [false]. *)
Lemma export_import_corrupt_settings :
  let w := Examples.corrupt_settings in
  OfflineStorageService.exportData Examples.ready "2024-01-01T00:00:00.000Z" w
    = (Normal None, w)
  ∧ OfflineStorageService.importData Examples.ready None w = (Normal false, w)
  ∧ (let* snapshot :=
       OfflineStorageService.exportData Examples.ready "2024-01-01T00:00:00.000Z" in
     OfflineStorageService.importData Examples.ready snapshot) w
    = (Normal false, w).
Proof. repeat split. Qed.

(** Each of the other conditions is needed.  A collection that is falsy,
    such as the one of a store whose players text is [null], is exported
    but not written by [importData]: the importing host keeps its own
    collection, and the registered callback is told of an empty one. *)
Lemma import_skips_falsy_collection :
  let w1 := with_items (insert PLAYERS (Serialized JNull)) Examples.fresh_window in
  let w2 := Examples.holding [Examples.player_with_id "B" "x2"] in
  ∃ snapshot w2',
    OfflineStorageService.exportData Examples.ready "2024-01-01T00:00:00.000Z" w1
      = (Normal (Some snapshot), w1)
    ∧ OfflineStorageService.importData Examples.ready (Some snapshot) w2
      = (Normal true, w2')
    ∧ collection w1 = JNull
    ∧ collection w2' = JArr [Examples.player_with_id "B" "x2"]
    ∧ delivered w2' = [JArr []].
Proof. intros w1 w2. eexists _, _. repeat split. Qed.

(** Settings that are falsy, such as those of a store whose settings text
    is [null], are exported but not written: the importing host keeps its
    own settings. *)
Lemma import_skips_falsy_settings :
  let dark := JObj {[ "theme" := JStr "dark" ]} in
  let w1 := with_items (insert SETTINGS (Serialized JNull)) Examples.fresh_window in
  let w2 := with_items (insert SETTINGS (Serialized dark)) Examples.fresh_window in
  ∃ snapshot w2',
    OfflineStorageService.exportData Examples.ready "2024-01-01T00:00:00.000Z" w1
      = (Normal (Some snapshot), w1)
    ∧ OfflineStorageService.importData Examples.ready (Some snapshot) w2
      = (Normal true, w2')
    ∧ settings_of w1 = Some JNull
    ∧ settings_of w2' = Some dark.
Proof. intros dark w1 w2. eexists _, _. repeat split. Qed.

(** On a host that refuses the write, [importData] returns [false] and the
    host keeps its collection. *)
Lemma import_refused_write :
  let w1 := Examples.holding [Examples.player_with_id "A" "x1"] in
  let w2 := Examples.full_window in
  ∃ snapshot,
    OfflineStorageService.exportData Examples.ready "2024-01-01T00:00:00.000Z" w1
      = (Normal (Some snapshot), w1)
    ∧ OfflineStorageService.importData Examples.ready (Some snapshot) w2
      = (Normal false, w2).
Proof. intros w1 w2. eexists. split; reflexivity. Qed.

(** When the registered callback throws, [importData] returns [false]
    although the collection has been replaced. *)
Lemma import_throwing_callback :
  let throwing :=
    {| OfflineStorageService.dataHandler :=
         Some {| onDataChanged := Some (λ _, Some (Error "handler")) |};
       OfflineStorageService.initialized := true |} in
  let w1 := Examples.holding [Examples.player_with_id "A" "x1"] in
  let w2 := Examples.fresh_window in
  ∃ snapshot w2',
    OfflineStorageService.exportData throwing "2024-01-01T00:00:00.000Z" w1
      = (Normal (Some snapshot), w1)
    ∧ OfflineStorageService.importData throwing (Some snapshot) w2
      = (Normal false, w2')
    ∧ collection w2' = JArr [Examples.player_with_id "A" "x1"].
Proof. intros throwing w1 w2. eexists _, _. repeat split. Qed.

(** ** Replaying create, update and delete *)

Lemma strict_eq_true (a b : option JSON) : strict_eq a b = true → a = b.
Proof.
  destruct a as [[]|], b as [[]|]; cbn; try discriminate; try reflexivity.
  - intros H. apply Bool.eqb_prop in H. congruence.
  - intros H. apply Z.eqb_eq in H. congruence.
  - intros H. apply String.eqb_eq in H. congruence.
Qed.

Lemma no_match_replace (id copy : JSON) (xs : list JSON) :
  existsb (carries id) xs = false → Replay.replace_matching id copy xs = xs.
Proof.
  induction xs as [|p ps IH]; cbn; [reflexivity|].
  unfold Replay.matches. intros [Hp Hps]%orb_false_iff.
  rewrite Hp, IH by exact Hps. reflexivity.
Qed.

Lemma no_match_remove (id : JSON) (xs : list JSON) :
  existsb (carries id) xs = false → Replay.remove_matching id xs = xs.
Proof.
  induction xs as [|p ps IH]; cbn; [reflexivity|].
  unfold Replay.matches. intros [Hp Hps]%orb_false_iff.
  rewrite Hp, IH by exact Hps. reflexivity.
Qed.

Lemma remove_matching_sublist (id : JSON) (xs : list JSON) :
  Replay.remove_matching id xs `sublist_of` xs.
Proof.
  induction xs as [|p ps IH]; cbn; [constructor|].
  destruct (Replay.matches id p); [apply sublist_cons | apply sublist_skip]; exact IH.
Qed.

Lemma match_remove_shorter (id : JSON) (xs : list JSON) :
  existsb (carries id) xs = true →
  (length (Replay.remove_matching id xs) < length xs)%nat.
Proof.
  induction xs as [|p ps IH]; cbn; [discriminate|].
  unfold Replay.matches.
  pose proof (sublist_length _ _ (remove_matching_sublist id ps)) as Hle.
  destruct (carries id p); cbn.
  - intros _. lia.
  - intros H. specialize (IH H). lia.
Qed.

(** [findIndex] with the test of [update], on a collection without
    [null] entries: it returns without touching the host, [-1] when no
    entry carries the identifier, and otherwise the position at which the
    replay replaces the entry. *)
Lemma findIndex_from_replace (id copy : JSON) (xs : list JSON) (i : Z) (w : Window) :
  0 ≤ i →
  no_null_entry xs = true →
  ∃ r,
    findIndex_from
      (λ p, let* pid := get p "__backendId" in ret (strict_eq pid (Some id))) xs i w
      = (Normal r, w)
    ∧ if existsb (carries id) xs
      then i ≤ r
           ∧ (Z.to_nat (r - i) < length xs)%nat
           ∧ <[Z.to_nat (r - i) := copy]> xs = Replay.replace_matching id copy xs
      else r = -1.
Proof.
  revert i. induction xs as [|p ps IH]; intros i Hi Hnn.
  - exists (-1). split; reflexivity.
  - cbn [no_null_entry forallb] in Hnn. apply andb_true_iff in Hnn as [Hp Hps].
    cbn [findIndex_from existsb Replay.replace_matching]. unfold Replay.matches.
    erewrite bind_run.
    2:{ erewrite bind_run by (rewrite get_backendId_run; destruct p; [discriminate|..]; reflexivity).
        reflexivity. }
    fold (carries id p). destruct (carries id p) eqn:Ec; cbn [orb].
    + exists i. split; [reflexivity|]. rewrite Z.sub_diag. cbn. repeat split; lia.
    + destruct (IH (i + 1) ltac:(lia) Hps) as (r & Hr & Hspec).
      exists r. split; [exact Hr|].
      destruct (existsb (carries id) ps); [|exact Hspec].
      destruct Hspec as (Hle & Hlt & Hins).
      replace (Z.to_nat (r - i)) with (S (Z.to_nat (r - (i + 1)))) by lia.
      split; [lia|]. split; [cbn [length]; lia|].
      cbn. f_equal. exact Hins.
Qed.

(** [filter] with the test of [delete], on a collection without [null]
    entries, is the replay's removal. *)
Lemma filter_list_remove (id : JSON) (xs : list JSON) (w : Window) :
  no_null_entry xs = true →
  filter_list
    (λ p, let* pid := get p "__backendId" in ret (negb (strict_eq pid (Some id)))) xs w
  = (Normal (Replay.remove_matching id xs), w).
Proof.
  induction xs as [|p ps IH]; intros Hnn; [reflexivity|].
  cbn [no_null_entry forallb] in Hnn. apply andb_true_iff in Hnn as [Hp Hps].
  cbn [filter_list Replay.remove_matching]. unfold Replay.matches.
  erewrite bind_run.
  2:{ erewrite bind_run by (rewrite get_backendId_run; destruct p; [discriminate|..]; reflexivity).
      reflexivity. }
  erewrite bind_run by (apply IH; exact Hps).
  fold (carries id p). destruct (carries id p); reflexivity.
Qed.

Lemma persisted_collection (w : Window) (v : JSON) :
  localStorage w !! PLAYERS = Some (Serialized v) → collection w = v.
Proof. intros H. unfold collection. rewrite H. reflexivity. Qed.

(** The course of an [update] call that passes the identifier check, on
    a collection without [null] entries. *)
Lemma update_run
    (this : OfflineStorageService.t) (o : gmap string JSON) (id : JSON)
    (xs : list JSON) (w : Window) :
  OfflineStorageService.initialized this = true →
  o !! "__backendId" = Some id →
  truthy id = true →
  collection w = JArr xs →
  no_null_entry xs = true →
  OfflineStorageService.update this (JObj o) w =
    if existsb (carries id) xs then
      let players := JArr (Replay.replace_matching id (JObj o) xs) in
      if quota w (localStorage w) PLAYERS (Serialized players) then
        match OfflineStorageService.notify this (ret players)
                (with_items (insert PLAYERS (Serialized players)) w) with
        | (Normal _, w') => (Normal (OfflineResult.ok undefined), w')
        | (Abrupt e, w') => (Normal (OfflineResult.error e), w')
        end
      else (Normal (OfflineResult.error (Error "Failed to save to localStorage")), w)
    else (Normal (OfflineResult.error (Error "Record not found")), w).
Proof.
  intros Hinit Hid Ht Hc Hnn.
  destruct (findIndex_from_replace id (JObj o) xs 0 w ltac:(lia) Hnn) as (r & Hr & Hspec).
  rewrite Z.sub_0_r in Hspec.
  unfold OfflineStorageService.update, try_catch. rewrite Hinit. cbn [negb].
  erewrite bind_run by reflexivity.
  erewrite bind_run by reflexivity.
  rewrite Hid. cbn [truthy_opt]. rewrite Ht. cbn [negb].
  erewrite bind_run by reflexivity.
  erewrite bind_run by apply getAllPlayers_run.
  rewrite Hc.
  erewrite bind_run by exact Hr.
  destruct (existsb (carries id) xs).
  - destruct Hspec as (Hle & Hlt & Hins).
    replace (r =? -1) with false by (symmetry; apply Z.eqb_neq; lia).
    erewrite bind_run by reflexivity.
    erewrite bind_run.
    2:{ unfold Array_set. destruct (decide (Z.to_nat r < length xs)%nat); [|lia].
        cbn [spread]. rewrite Hins. reflexivity. }
    unfold bind at 1. rewrite saveAllPlayers_run. cbv zeta.
    destruct (quota w (localStorage w) PLAYERS _).
    + erewrite bind_run by reflexivity.
      unfold bind at 1.
      destruct (OfflineStorageService.notify this _ _) as [[[]|e] w']; reflexivity.
    + reflexivity.
  - subst r. reflexivity.
Qed.

(** The course of a [delete] call that passes the identifier check, on a
    collection without [null] entries. *)
Lemma delete_run
    (this : OfflineStorageService.t) (record : JSON) (id : JSON)
    (xs : list JSON) (w : Window) :
  OfflineStorageService.initialized this = true →
  identifier record = Some id →
  truthy id = true →
  collection w = JArr xs →
  no_null_entry xs = true →
  OfflineStorageService.delete this record w =
    if existsb (carries id) xs then
      let players := JArr (Replay.remove_matching id xs) in
      if quota w (localStorage w) PLAYERS (Serialized players) then
        match OfflineStorageService.notify this (ret players)
                (with_items (insert PLAYERS (Serialized players)) w) with
        | (Normal _, w') => (Normal (OfflineResult.ok undefined), w')
        | (Abrupt e, w') => (Normal (OfflineResult.error e), w')
        end
      else (Normal (OfflineResult.error (Error "Failed to save to localStorage")), w)
    else (Normal (OfflineResult.error (Error "Record not found")), w).
Proof.
  intros Hinit Hid Ht Hc Hnn.
  destruct record as [| | | | |o]; try discriminate. cbn [identifier] in Hid.
  unfold OfflineStorageService.delete, try_catch. rewrite Hinit. cbn [negb].
  erewrite bind_run by reflexivity.
  erewrite bind_run by reflexivity.
  rewrite Hid. cbn [truthy_opt]. rewrite Ht. cbn [negb].
  erewrite bind_run by reflexivity.
  erewrite bind_run by apply getAllPlayers_run.
  rewrite Hc.
  erewrite bind_run.
  2:{ unfold Array_filter. erewrite bind_run by (apply filter_list_remove; exact Hnn).
      reflexivity. }
  erewrite bind_run by reflexivity.
  erewrite bind_run by reflexivity.
  cbn [String.eqb Ascii.eqb Bool.eqb strict_eq].
  destruct (existsb (carries id) xs) eqn:Ex.
  - pose proof (match_remove_shorter id xs Ex) as Hlt.
    replace (Z.of_nat (length xs) =? Z.of_nat (length (Replay.remove_matching id xs)))
      with false by (symmetry; apply Z.eqb_neq; lia).
    erewrite bind_run by reflexivity.
    unfold bind at 1. rewrite saveAllPlayers_run. cbv zeta.
    destruct (quota w (localStorage w) PLAYERS _).
    + erewrite bind_run by reflexivity.
      unfold bind at 1.
      destruct (OfflineStorageService.notify this _ _) as [[[]|e] w']; reflexivity.
    + reflexivity.
  - rewrite (no_match_remove id xs Ex), Z.eqb_refl. reflexivity.
Qed.

Lemma well_formed_no_null (xs : list JSON) :
  well_formed xs = true → no_null_entry xs = true.
Proof.
  unfold well_formed, no_null_entry. rewrite !forallb_forall.
  intros H p Hp. specialize (H p Hp). destruct p; [discriminate|..]; reflexivity.
Qed.

(** In a well-formed collection no entry carries a falsy identifier. *)
Lemma falsy_id_not_carried (id : JSON) (xs : list JSON) :
  well_formed xs = true → truthy id = false → existsb (carries id) xs = false.
Proof.
  intros Hwf Hfalsy. induction xs as [|p ps IH]; [reflexivity|].
  cbn [well_formed forallb] in Hwf. apply andb_true_iff in Hwf as [Hp Hps].
  cbn [existsb]. rewrite (IH Hps), orb_false_r.
  unfold carries. destruct (strict_eq (identifier p) (Some id)) eqn:E; [|reflexivity].
  apply strict_eq_true in E. unfold record_like in Hp. rewrite E in Hp.
  destruct p; congruence.
Qed.

Lemma replace_matching_well_formed (id record : JSON) (xs : list JSON) :
  identifier record = Some id →
  well_formed xs = true →
  well_formed (Replay.replace_matching id record xs) = true.
Proof.
  intros Hid. induction xs as [|p ps IH]; [reflexivity|].
  cbn [well_formed forallb Replay.replace_matching].
  intros [Hp Hps]%andb_true_iff. unfold Replay.matches, carries.
  destruct (strict_eq (identifier p) (Some id)) eqn:E; cbn [forallb].
  - apply strict_eq_true in E. rewrite Hps, andb_true_r.
    unfold record_like in *. rewrite E in Hp. rewrite Hid.
    destruct record; try discriminate. destruct p; congruence.
  - rewrite Hp. apply IH, Hps.
Qed.

Lemma remove_matching_well_formed (id : JSON) (xs : list JSON) :
  well_formed xs = true →
  well_formed (Replay.remove_matching id xs) = true.
Proof.
  induction xs as [|p ps IH]; [reflexivity|].
  cbn [well_formed forallb Replay.remove_matching].
  intros [Hp Hps]%andb_true_iff.
  destruct (Replay.matches id p); cbn [forallb]; [apply IH, Hps|].
  rewrite Hp. apply IH, Hps.
Qed.

Lemma generated_id_truthy (now : Z) (random36 : string) :
  truthy (JStr (OfflineStorageService._generateId now random36)) = true.
Proof. reflexivity. Qed.

Lemma step_well_formed (c : call) (xs : list JSON) :
  well_formed xs = true → well_formed (Replay.step c xs) = true.
Proof.
  intros Hwf. destruct c as [record now random36|record|record]; cbn [Replay.step].
  - unfold well_formed. rewrite forallb_app. fold (well_formed xs). rewrite Hwf.
    cbn [forallb]. unfold record_like, Replay.identified. cbn [identifier].
    rewrite lookup_insert_eq, generated_id_truthy. reflexivity.
  - destruct (identifier record) as [id|] eqn:Eid; [|exact Hwf].
    apply replace_matching_well_formed; assumption.
  - destruct (identifier record) as [id|]; [|exact Hwf].
    apply remove_matching_well_formed, Hwf.
Qed.

(** What a call that gets as far as saving leaves behind, whether the
    callback returns or throws. *)
Lemma saved_and_notified
    (this : OfflineStorageService.t) (players : JSON) (w : Window) :
  accepts_all w →
  ∃ r w',
    (if quota w (localStorage w) PLAYERS (Serialized players) then
       match OfflineStorageService.notify this (ret players)
               (with_items (insert PLAYERS (Serialized players)) w) with
       | (Normal _, w') => (Normal (OfflineResult.ok undefined), w')
       | (Abrupt e, w') => (Normal (OfflineResult.error e), w')
       end
     else (Normal (OfflineResult.error (Error "Failed to save to localStorage")), w))
    = (Normal r, w')
    ∧ accepts_all w'
    ∧ localStorage w' !! PLAYERS = Some (Serialized players).
Proof.
  intros Hacc. rewrite Hacc.
  pose proof (notify_items this players
                (with_items (insert PLAYERS (Serialized players)) w)) as [Hitems Hquota].
  destruct (OfflineStorageService.notify this _ _) as [[[]|e] w'];
    cbn [snd localStorage quota with_items] in Hitems, Hquota;
    eexists _, w'; (split; [reflexivity|]); split.
  - intros m key value. rewrite Hquota. apply Hacc.
  - rewrite Hitems. apply lookup_insert_eq.
  - intros m key value. rewrite Hquota. apply Hacc.
  - rewrite Hitems. apply lookup_insert_eq.
Qed.

(** A call whose record carries a falsy identifier, or none, fails in the
    identifier check and leaves the host as it was. *)
Lemma update_without_identifier
    (this : OfflineStorageService.t) (record : JSON) (w : Window) :
  OfflineStorageService.initialized this = true →
  truthy_opt (identifier record) = false →
  ∃ e, OfflineStorageService.update this record w = (Normal (OfflineResult.error e), w).
Proof.
  intros Hinit Hid. unfold OfflineStorageService.update. rewrite Hinit.
  destruct record as [| | | | |o]; cbn [identifier] in Hid;
    (erewrite try_catch_throws; [eexists; reflexivity|]);
    erewrite bind_run by reflexivity; try reflexivity.
  erewrite bind_run by reflexivity. rewrite Hid. reflexivity.
Qed.

Lemma delete_without_identifier
    (this : OfflineStorageService.t) (record : JSON) (w : Window) :
  OfflineStorageService.initialized this = true →
  truthy_opt (identifier record) = false →
  ∃ e, OfflineStorageService.delete this record w = (Normal (OfflineResult.error e), w).
Proof.
  intros Hinit Hid. unfold OfflineStorageService.delete. rewrite Hinit.
  destruct record as [| | | | |o]; cbn [identifier] in Hid;
    (erewrite try_catch_throws; [eexists; reflexivity|]);
    erewrite bind_run by reflexivity; try reflexivity.
  erewrite bind_run by reflexivity. rewrite Hid. reflexivity.
Qed.

(** One call takes the persisted collection to its replay. *)
Lemma perform_replays
    (this : OfflineStorageService.t) (c : call) (w : Window) (xs : list JSON) :
  OfflineStorageService.initialized this = true →
  accepts_all w →
  localStorage w !! PLAYERS = Some (Serialized (JArr xs)) →
  well_formed xs = true →
  ∃ r w',
    perform this c w = (Normal r, w')
    ∧ accepts_all w'
    ∧ localStorage w' !! PLAYERS = Some (Serialized (JArr (Replay.step c xs))).
Proof.
  intros Hinit Hacc Hp Hwf.
  pose proof (persisted_collection w _ Hp) as Hc.
  pose proof (well_formed_no_null xs Hwf) as Hnn.
  assert (Hfail : ∀ e, Replay.step c xs = xs →
            ∃ r w', (Normal (OfflineResult.error e), w) = (Normal r, w')
                    ∧ accepts_all w'
                    ∧ localStorage w' !! PLAYERS
                      = Some (Serialized (JArr (Replay.step c xs)))).
  { intros e ->. eexists _, w. repeat split; assumption. }
  destruct c as [record now random36|record|record]; cbn [perform].
  - rewrite create_run, Hinit, Hc. cbv zeta. apply saved_and_notified, Hacc.
  - destruct (truthy_opt (identifier record)) eqn:Et.
    + destruct (identifier record) as [id|] eqn:Eid; [|discriminate].
      destruct record as [| | | | |o]; try discriminate. cbn [identifier] in Eid.
      rewrite (update_run this o id xs w Hinit Eid Et Hc Hnn).
      cbn [Replay.step identifier]. rewrite Eid.
      destruct (existsb (carries id) xs) eqn:Ex.
      * apply saved_and_notified, Hacc.
      * rewrite (no_match_replace id (JObj o) xs Ex).
        eexists _, w. repeat split; assumption.
    + destruct (update_without_identifier this record w Hinit Et) as [e ->].
      apply Hfail. cbn [Replay.step].
      destruct (identifier record) as [id|]; [|reflexivity].
      apply no_match_replace, falsy_id_not_carried; assumption.
  - destruct (truthy_opt (identifier record)) eqn:Et.
    + destruct (identifier record) as [id|] eqn:Eid; [|discriminate].
      rewrite (delete_run this record id xs w Hinit Eid Et Hc Hnn).
      cbn [Replay.step]. rewrite Eid.
      destruct (existsb (carries id) xs) eqn:Ex.
      * apply saved_and_notified, Hacc.
      * rewrite (no_match_remove id xs Ex).
        eexists _, w. repeat split; assumption.
    + destruct (delete_without_identifier this record w Hinit Et) as [e ->].
      apply Hfail. cbn [Replay.step].
      destruct (identifier record) as [id|]; [|reflexivity].
      apply no_match_remove, falsy_id_not_carried; assumption.
Qed.

(** *** Unique identifiers *)

Lemma generated_id_is_key (now : Z) (random36 : string) :
  is_key (Some (JStr (OfflineStorageService._generateId now random36))) = true.
Proof.
  unfold is_key. apply andb_true_iff. split.
  - reflexivity.
  - cbn [strict_eq]. apply String.eqb_refl.
Qed.

Lemma uniquely_identified_well_formed (xs : list JSON) :
  uniquely_identified xs → well_formed xs = true.
Proof.
  intros [Hkeys _]. unfold well_formed. apply forallb_forall.
  intros p Hp%list_elem_of_In. rewrite Forall_forall in Hkeys.
  specialize (Hkeys p Hp). unfold is_key in Hkeys.
  apply andb_true_iff in Hkeys as [Ht _]. unfold record_like.
  destruct (identifier p) as [id|] eqn:Eid; [|discriminate].
  destruct p; try discriminate; exact Ht.
Qed.

(** Replacing the entry that carries [id] by a record that carries [id]
    changes no identifier of the collection. *)
Lemma replace_matching_identifiers (id record : JSON) (xs : list JSON) :
  identifier record = Some id →
  identifier <$> Replay.replace_matching id record xs = identifier <$> xs.
Proof.
  intros Hid. induction xs as [|p ps IH]; cbn; [reflexivity|].
  unfold Replay.matches, carries.
  destruct (strict_eq (identifier p) (Some id)) eqn:E; cbn.
  - apply strict_eq_true in E. congruence.
  - f_equal. exact IH.
Qed.

Lemma identifiers_keys (xs ys : list JSON) :
  identifier <$> xs = identifier <$> ys →
  Forall (λ p, is_key (identifier p) = true) ys →
  Forall (λ p, is_key (identifier p) = true) xs.
Proof.
  intros Heq Hys.
  apply (Forall_fmap identifier (λ i, is_key i = true)).
  rewrite Heq. apply Forall_fmap, Hys.
Qed.

Lemma step_uniquely_identified (c : call) (xs : list JSON) :
  uniquely_identified xs →
  Replay.fresh [c] xs →
  uniquely_identified (Replay.step c xs).
Proof.
  intros [Hkeys Hnodup] [Hfresh _].
  destruct c as [record now random36|record|record]; cbn [Replay.step].
  - split.
    + apply Forall_app. split; [exact Hkeys|].
      apply Forall_singleton. unfold Replay.identified. cbn [identifier].
      rewrite lookup_insert_eq. apply generated_id_is_key.
    + rewrite fmap_app. apply NoDup_app. split; [exact Hnodup|]. split.
      * intros i Hi Hin. unfold Replay.identified in Hin. cbn in Hin.
        apply list_elem_of_singleton in Hin. rewrite lookup_insert_eq in Hin.
        subst i. exact (Hfresh Hi).
      * apply NoDup_singleton.
  - destruct (identifier record) as [id|] eqn:Eid; [|split; assumption].
    pose proof (replace_matching_identifiers id record xs Eid) as Hsame.
    split; [exact (identifiers_keys _ _ Hsame Hkeys) | rewrite Hsame; exact Hnodup].
  - destruct (identifier record) as [id|]; [|split; assumption].
    pose proof (remove_matching_sublist id xs) as Hsub. split.
    + rewrite Forall_forall in *. intros p Hp. apply Hkeys.
      eapply elem_of_sublist; eassumption.
    + eapply sublist_NoDup; [exact Hnodup|]. apply fmap_sublist, Hsub.
Qed.

(** The calls of a sequence run one after the other: the state after a
    prefix is the state in which the rest runs. *)
Lemma perform_all_app
    (this : OfflineStorageService.t) (cs1 cs2 : list call) (w : Window) :
  perform_all this (cs1 ++ cs2) w =
    (let* rs1 := perform_all this cs1 in
     let* rs2 := perform_all this cs2 in
     ret (rs1 ++ rs2)) w.
Proof.
  revert w. induction cs1 as [|c cs1 IH]; intros w; cbn [perform_all app].
  - unfold bind at 1, ret at 1. unfold bind.
    destruct (perform_all this cs2 w) as [[rs|e] w']; reflexivity.
  - unfold bind at 1 3 4.
    destruct (perform this c w) as [[r|e] w1]; [|reflexivity].
    unfold bind at 1. rewrite IH. unfold bind.
    destruct (perform_all this cs1 w1) as [[rs1|e] w2]; [|reflexivity].
    cbn. destruct (perform_all this cs2 w2) as [[rs2|e] w3]; reflexivity.
Qed.

Lemma perform_all_replays
    (this : OfflineStorageService.t) (cs : list call) (w : Window) (xs : list JSON) :
  OfflineStorageService.initialized this = true →
  accepts_all w →
  localStorage w !! PLAYERS = Some (Serialized (JArr xs)) →
  well_formed xs = true →
  ∃ results w',
    perform_all this cs w = (Normal results, w')
    ∧ length results = length cs
    ∧ accepts_all w'
    ∧ localStorage w' !! PLAYERS = Some (Serialized (JArr (Replay.replay cs xs)))
    ∧ well_formed (Replay.replay cs xs) = true.
Proof.
  intros Hinit. revert w xs.
  induction cs as [|c cs IH]; intros w xs Hacc Hp Hwf.
  - exists [], w. repeat split; assumption.
  - destruct (perform_replays this c w xs Hinit Hacc Hp Hwf) as (r & w1 & Hrun & Hacc1 & Hp1).
    destruct (IH w1 (Replay.step c xs) Hacc1 Hp1 (step_well_formed c xs Hwf))
      as (rs & w' & Hrest & Hlen & Hacc' & Hp' & Hwf').
    exists (r :: rs), w'. split; [|split; [|split; [|split]]].
    + cbn [perform_all]. erewrite bind_run by exact Hrun.
      erewrite bind_run by exact Hrest. reflexivity.
    + cbn [length]. rewrite Hlen. reflexivity.
    + exact Hacc'.
    + exact Hp'.
    + exact Hwf'.
Qed.

Lemma replay_uniquely_identified (cs : list call) (xs : list JSON) :
  uniquely_identified xs → Replay.fresh cs xs →
  uniquely_identified (Replay.replay cs xs).
Proof.
  revert xs. induction cs as [|c cs IH]; intros xs Hu Hfresh; [exact Hu|].
  destruct Hfresh as [Hc Hrest]. apply (IH (Replay.step c xs)); [|exact Hrest].
  apply step_uniquely_identified; [exact Hu|]. split; [exact Hc|exact I].
Qed.

(** C1, amended.  On an initialized store whose host accepts writes and
    whose persisted collection is a well-formed sequence of records (no
    entry is [null] or carries a falsy identifier), after any sequence
    [cs] of create, update and delete calls, hence after each call of a
    longer sequence, the persisted collection is the replay of [cs]:
    create appends the submitted record with its generated identifier,
    update replaces the entry carrying the record's identifier, at its
    position, by the record, and delete removes the entries carrying it.
    The records stay uniquely identified when they were so before the
    calls and every identifier generated by a create is new to the
    collection it is added to. *)
Theorem replay_persisted
    (this : OfflineStorageService.t) (cs : list call) (w : Window) (xs : list JSON) :
  OfflineStorageService.initialized this = true →
  accepts_all w →
  localStorage w !! PLAYERS = Some (Serialized (JArr xs)) →
  well_formed xs = true →
  (∃ results w',
     perform_all this cs w = (Normal results, w')
     ∧ length results = length cs
     ∧ localStorage w' !! PLAYERS = Some (Serialized (JArr (Replay.replay cs xs))))
  ∧ (uniquely_identified xs → Replay.fresh cs xs →
     uniquely_identified (Replay.replay cs xs)).
Proof.
  intros Hinit Hacc Hp Hwf. split.
  - destruct (perform_all_replays this cs w xs Hinit Hacc Hp Hwf)
      as (rs & w' & Hrun & Hlen & _ & Hp' & _).
    exists rs, w'. repeat split; assumption.
  - apply replay_uniquely_identified.
Qed.

(** The same, spelled out for a point in the middle of a run: the host
    reached after the calls [cs1] holds their replay, and the remaining
    calls [cs2] run from there. *)
Lemma replay_after_each_call
    (this : OfflineStorageService.t) (cs1 cs2 : list call) (w : Window) (xs : list JSON) :
  OfflineStorageService.initialized this = true →
  accepts_all w →
  localStorage w !! PLAYERS = Some (Serialized (JArr xs)) →
  well_formed xs = true →
  ∃ rs1 w1 rs2 w2,
    perform_all this cs1 w = (Normal rs1, w1)
    ∧ perform_all this cs2 w1 = (Normal rs2, w2)
    ∧ perform_all this (cs1 ++ cs2) w = (Normal (rs1 ++ rs2), w2)
    ∧ localStorage w1 !! PLAYERS = Some (Serialized (JArr (Replay.replay cs1 xs)))
    ∧ localStorage w2 !! PLAYERS
      = Some (Serialized (JArr (Replay.replay (cs1 ++ cs2) xs))).
Proof.
  intros Hinit Hacc Hp Hwf.
  destruct (perform_all_replays this cs1 w xs Hinit Hacc Hp Hwf)
    as (rs1 & w1 & Hrun1 & _ & Hacc1 & Hp1 & Hwf1).
  destruct (perform_all_replays this cs2 w1 _ Hinit Hacc1 Hp1 Hwf1)
    as (rs2 & w2 & Hrun2 & _ & _ & Hp2 & _).
  exists rs1, w1, rs2, w2. split; [exact Hrun1|]. split; [exact Hrun2|].
  split; [|split; [exact Hp1|]].
  - rewrite perform_all_app. erewrite bind_run by exact Hrun1.
    erewrite bind_run by exact Hrun2. reflexivity.
  - unfold Replay.replay in *. rewrite foldl_app. exact Hp2.
Qed.

Lemma replay_persisted_witness :
  let a := "offline_1700000000000_4fzyo82mv"%string in
  let b := "offline_1700000000001_9k2c0x7pq"%string in
  let cs := [Create (Examples.player "A") 1700000000000 "0.4fzyo82mvyr";
             Create (Examples.player "B") 1700000000001 "0.9k2c0x7pq1";
             Update (Examples.player_with_id "A2" a);
             Delete (Examples.player_with_id "B" b)] in
  (∃ results w',
     perform_all Examples.ready cs Examples.fresh_window = (Normal results, w')
     ∧ length results = 4%nat
     ∧ localStorage w' !! PLAYERS
       = Some (Serialized (JArr [Examples.player_with_id "A2" a])))
  ∧ uniquely_identified (Replay.replay cs []).
Proof.
  intros a b cs.
  destruct (replay_persisted Examples.ready cs Examples.fresh_window [])
    as [Hreplay Hunique].
  - reflexivity.
  - intros m key value. reflexivity.
  - reflexivity.
  - reflexivity.
  - split; [exact Hreplay|]. apply Hunique.
    + split; constructor.
    + cbn [Replay.fresh]. repeat split.
      * intros H. inversion H.
      * intros H. vm_compute in H. apply list_elem_of_singleton in H. discriminate H.
Defined.

(** C1 as stated fails in its last part.  Two creates whose clock reading
    and random draw coincide both succeed and leave two records with the
    same identifier. *)
Lemma create_twice_same_identifier :
  let id := "offline_1700000000000_4fzyo82mv"%string in
  let cs := [Create (Examples.player "A") 1700000000000 "0.4fzyo82mvyr";
             Create (Examples.player "B") 1700000000000 "0.4fzyo82mvyr"] in
  let stored := [Examples.player_with_id "A" id; Examples.player_with_id "B" id] in
  (perform_all Examples.ready cs Examples.fresh_window).1
    = Normal [OfflineResult.ok undefined; OfflineResult.ok undefined]
  ∧ collection (perform_all Examples.ready cs Examples.fresh_window).2 = JArr stored
  ∧ ¬ uniquely_identified stored.
Proof.
  intros id cs stored. split; [|split].
  - vm_compute. reflexivity.
  - vm_compute. reflexivity.
  - intros [_ Hnodup]. vm_compute in Hnodup.
    apply NoDup_cons in Hnodup as [Hnotin _]. apply Hnotin. left.
Qed.

(** The assumptions of the replay theorem are needed.  A create whose
    write the host refuses stores nothing; an update fails on a [null]
    entry that comes before the matching one; and an update whose record
    carries the falsy identifier [0] is rejected even though an entry
    carries the same identifier. *)
Lemma create_refused_write :
  OfflineStorageService.create Examples.ready (Examples.player "A")
    1700000000000 "0.4fzyo82mvyr" Examples.full_window
  = (Normal (OfflineResult.error (Error "Failed to save to localStorage")),
     Examples.full_window).
Proof. reflexivity. Qed.

Lemma update_behind_null_entry :
  let w := Examples.holding [JNull; Examples.player_with_id "A" "x1"] in
  OfflineStorageService.update Examples.ready (Examples.player_with_id "A2" "x1") w
  = (Normal (OfflineResult.error TypeError), w).
Proof. reflexivity. Qed.

Lemma update_falsy_identifier :
  let entry := JObj {[ "name" := JStr "A"; "__backendId" := JNum 0 ]} in
  let record := JObj {[ "name" := JStr "B"; "__backendId" := JNum 0 ]} in
  let w := Examples.holding [entry] in
  carries (JNum 0) entry = true
  ∧ OfflineStorageService.update Examples.ready record w
    = (Normal (OfflineResult.error (Error "Record must have __backendId to update")), w).
Proof. split; reflexivity. Qed.

(** ** Failure leaves the host untouched *)

Lemma findIndex_from_pure (id : option JSON) (xs : list JSON) (i : Z) (w : Window) :
  ∃ res,
    findIndex_from (λ p, let* pid := get p "__backendId" in ret (strict_eq pid id)) xs i w
    = (res, w).
Proof.
  revert i. induction xs as [|p ps IH]; intros i; cbn [findIndex_from].
  - eexists; reflexivity.
  - unfold bind at 1. unfold bind at 1. rewrite get_backendId_run.
    destruct p; try (eexists; reflexivity); unfold ret at 1;
      match goal with
      | |- context [if ?c then _ else _] => destruct c; [eexists; reflexivity | apply IH]
      end.
Qed.

Lemma filter_list_pure (id : option JSON) (xs : list JSON) (w : Window) :
  ∃ res,
    filter_list (λ p, let* pid := get p "__backendId" in ret (negb (strict_eq pid id))) xs w
    = (res, w).
Proof.
  induction xs as [|p ps IH]; cbn [filter_list].
  - eexists; reflexivity.
  - unfold bind at 1. unfold bind at 1. rewrite get_backendId_run.
    destruct IH as [res IH].
    destruct p; try (eexists; reflexivity); unfold ret at 1; unfold bind at 1;
      rewrite IH; destruct res; eexists; reflexivity.
Qed.

(** Saving and notifying with a callback that returns: the call succeeds
    unless the host refuses the write, and then nothing has changed. *)
Lemma save_and_notify_outcome
    (this : OfflineStorageService.t) (players : JSON) (w : Window) :
  quiet this →
  aborts_or_completes w
    ((let* saved := OfflineStorageService._saveAllPlayers players in
      throw_if (negb saved) (Error "Failed to save to localStorage") >>
      OfflineStorageService.notify this (ret players) >>
      ret (OfflineResult.ok undefined)) w).
Proof.
  intros Hq.
  pose proof (saveAllPlayers_run players w) as Hsave.
  destruct (quota w (localStorage w) PLAYERS (Serialized players)).
  - right.
    destruct (notify_quiet this players
                (with_items (insert PLAYERS (Serialized players)) w) Hq)
      as (w' & Hn & _).
    exists w'. erewrite bind_run by exact Hsave.
    erewrite bind_run by reflexivity. erewrite bind_run by exact Hn.
    reflexivity.
  - left. eexists. erewrite bind_run by exact Hsave. reflexivity.
Qed.

(** With a callback that returns, each of create, update and delete either
    succeeds or returns a failure and leaves the host exactly as it was:
    a failed call has written nothing and notified nobody. *)
Lemma call_succeeds_or_changes_nothing
    (this : OfflineStorageService.t) (c : call) (w : Window) :
  quiet this →
  (∃ e, perform this c w = (Normal (OfflineResult.error e), w))
  ∨ (∃ w', perform this c w = (Normal (OfflineResult.ok undefined), w')).
Proof.
  intros Hq.
  assert (Hwrap : ∀ body : M OfflineResult.t,
            aborts_or_completes w (body w) →
            (∃ e, try_catch body (λ error, ret (OfflineResult.error error)) w
                  = (Normal (OfflineResult.error e), w))
            ∨ (∃ w', try_catch body (λ error, ret (OfflineResult.error error)) w
                     = (Normal (OfflineResult.ok undefined), w'))).
  { intros body [[e H]|[w' H]]; [left; exists e | right; exists w'];
      unfold try_catch; rewrite H; reflexivity. }
  destruct c as [record now random36|record|record]; cbn [perform];
    apply Hwrap.
  - unfold bind at 1.
    destruct (OfflineStorageService.initialized this); cbn [negb throw_if];
      [|aborted].
    unfold ret at 1. unfold bind at 1. rewrite getAllPlayers_run.
    destruct (collection w) as [| | | |xs|]; try aborted.
    unfold bind at 1. cbn [Array_push]. unfold ret at 1.
    apply save_and_notify_outcome, Hq.
  - unfold bind at 1.
    destruct (OfflineStorageService.initialized this); cbn [negb throw_if];
      [|aborted].
    unfold ret at 1. unfold bind at 1. rewrite get_backendId_run.
    destruct record; try aborted.
    cbn [identifier]. unfold bind at 1.
    destruct (o !! "__backendId") as [id|]; [|aborted].
    cbn [truthy_opt]. destruct (truthy id); [|aborted].
    cbn [negb throw_if]. unfold ret at 1. unfold bind at 1.
    rewrite getAllPlayers_run. unfold bind at 1.
    destruct (collection w) as [| | | |xs|]; try aborted.
    cbn [Array_findIndex].
    destruct (findIndex_from_pure (Some id) xs 0 w) as [[r|e] Hr]; rewrite Hr;
      [|aborted].
    unfold bind at 1.
    destruct (r =? -1); cbn [throw_if]; [aborted|].
    unfold ret at 1. unfold bind at 1. unfold Array_set.
    destruct (decide (Z.to_nat r < length xs)%nat); unfold ret at 1;
      apply save_and_notify_outcome, Hq.
  - unfold bind at 1.
    destruct (OfflineStorageService.initialized this); cbn [negb throw_if];
      [|aborted].
    unfold ret at 1. unfold bind at 1. rewrite get_backendId_run.
    destruct record; try aborted.
    cbn [identifier]. unfold bind at 1.
    destruct (o !! "__backendId") as [id|]; [|aborted].
    cbn [truthy_opt]. destruct (truthy id); [|aborted].
    cbn [negb throw_if]. unfold ret at 1. unfold bind at 1.
    rewrite getAllPlayers_run. unfold bind at 1.
    destruct (collection w) as [| | | |xs|]; try aborted.
    cbn [Array_filter]. unfold bind at 1.
    destruct (filter_list_pure (Some id) xs w) as [[ys|e] Hr]; rewrite Hr;
      [|aborted].
    unfold ret at 1. unfold bind at 1. cbn [get]. unfold ret at 1.
    unfold bind at 1. unfold ret at 1. unfold bind at 1.
    cbn [String.eqb Ascii.eqb Bool.eqb strict_eq].
    destruct (Z.of_nat (length xs) =? Z.of_nat (length ys)); cbn [throw_if];
      [aborted|].
    unfold ret at 1. apply save_and_notify_outcome, Hq.
Qed.

(** * Further properties *)

(** ** The storage layout and the constructor *)

Lemma initializeStorage_outcome (w w' : Window) :
  OfflineStorageService._initializeStorage w = (Normal tt, w') →
  text_truthy (localStorage w' !! PLAYERS) = true
  ∧ text_truthy (localStorage w' !! SETTINGS) = true
  ∧ (∀ key, text_truthy (localStorage w !! key) = true
            ∨ (key ≠ PLAYERS ∧ key ≠ SETTINGS) →
            localStorage w' !! key = localStorage w !! key)
  ∧ delivered w' = delivered w
  ∧ OfflineStorageService._initializeStorage w' = (Normal tt, w').
Proof.
  intros Hrun. destruct keys_distinct as (Hpc & Hps & Hcs).
  rewrite initializeStorage_run in Hrun. rewrite initializeStorage_run.
  cbv zeta in *. unfold setItem in *.
  destruct (text_truthy (localStorage w !! PLAYERS)) eqn:Ep.
  - destruct (text_truthy (localStorage w !! SETTINGS)) eqn:Es.
    + injection Hrun as <-. rewrite Ep, Es. repeat split; auto.
    + destruct (quota w (localStorage w) SETTINGS _); [|discriminate].
      injection Hrun as <-. cbn [localStorage with_items delivered].
      rewrite lookup_insert_eq, lookup_insert_ne, Ep by done.
      cbn [text_truthy]. repeat split; auto.
      intros key [Hk|[_ Hk]]; apply lookup_insert_ne; congruence.
  - destruct (quota w (localStorage w) PLAYERS _); [|discriminate].
    cbn [localStorage with_items quota] in Hrun.
    rewrite lookup_insert_ne in Hrun by done.
    destruct (text_truthy (localStorage w !! SETTINGS)) eqn:Es.
    + injection Hrun as <-. cbn [localStorage with_items delivered].
      rewrite lookup_insert_eq, lookup_insert_ne, Es by done.
      cbn [text_truthy]. repeat split; auto.
      intros key [Hk|[Hk _]]; apply lookup_insert_ne; congruence.
    + destruct (quota w _ SETTINGS _); [|discriminate].
      injection Hrun as <-. cbn [localStorage with_items delivered].
      rewrite lookup_insert_eq, lookup_insert_ne, lookup_insert_eq by done.
      cbn [text_truthy]. repeat split; auto.
      intros key [Hk|[Hk1 Hk2]]; rewrite !lookup_insert_ne; congruence.
Qed.

(** X1.  When [_initializeStorage] returns, the players and the settings
    keys both hold a non-empty text; a key that held a non-empty text, and
    every key other than these two, is as it was; nothing is delivered; and
    running it again changes nothing. *)
Theorem initializeStorage_establishes (w w' : Window) :
  OfflineStorageService._initializeStorage w = (Normal tt, w') →
  text_truthy (localStorage w' !! PLAYERS) = true
  ∧ text_truthy (localStorage w' !! SETTINGS) = true
  ∧ (∀ key, text_truthy (localStorage w !! key) = true
            ∨ (key ≠ PLAYERS ∧ key ≠ SETTINGS) →
            localStorage w' !! key = localStorage w !! key)
  ∧ delivered w' = delivered w
  ∧ OfflineStorageService._initializeStorage w' = (Normal tt, w').
Proof. apply initializeStorage_outcome. Qed.

Lemma initializeStorage_establishes_witness :
  let w := with_items (insert PLAYERS (Serialized (JArr [Examples.player "A"])))
             (with_items (delete SETTINGS) Examples.fresh_window) in
  let w' := with_items (insert SETTINGS (Serialized (JObj ∅))) w in
  localStorage w' !! PLAYERS = Some (Serialized (JArr [Examples.player "A"]))
  ∧ OfflineStorageService._initializeStorage w' = (Normal tt, w').
Proof.
  intros w w'.
  destruct (initializeStorage_establishes w w') as (_ & _ & Hkeep & _ & Hagain).
  - vm_compute. reflexivity.
  - split; [|exact Hagain]. rewrite (Hkeep PLAYERS).
    + vm_compute. reflexivity.
    + left. vm_compute. reflexivity.
Defined.

(** ** Generated identifiers *)

Lemma pretty_N_char_no_underscore (x : N) :
  Ascii.eqb (pretty_N_char x) underscore = false.
Proof. unfold pretty_N_char. repeat case_match; reflexivity. Qed.

Lemma pretty_N_go_no_underscore (x : N) (s : string) :
  no_underscore s = true → no_underscore (pretty_N_go x s) = true.
Proof.
  revert s. induction (N.lt_wf_0 x) as [x _ IH]; intros s Hs.
  assert (x = 0 ∨ 0 < x)%N as [->|Hpos] by lia.
  - rewrite pretty_N_go_0. exact Hs.
  - rewrite pretty_N_go_step by exact Hpos. apply IH.
    + apply N.div_lt; [exact Hpos|reflexivity].
    + cbn [no_underscore]. rewrite pretty_N_char_no_underscore, Hs. reflexivity.
Qed.

Lemma pretty_N_no_underscore (x : N) : no_underscore (pretty x) = true.
Proof.
  unfold pretty, pretty_N. case_decide; [reflexivity|].
  apply pretty_N_go_no_underscore. reflexivity.
Qed.

Lemma no_underscore_app (a b : string) :
  no_underscore (a +:+ b) = no_underscore a && no_underscore b.
Proof.
  induction a as [|c a IH]; [reflexivity|].
  change (String c a +:+ b) with (String c (a +:+ b)).
  cbn [no_underscore]. rewrite IH. apply andb_assoc.
Qed.

Lemma pretty_Z_no_underscore (z : Z) : no_underscore (pretty z) = true.
Proof.
  destruct z as [|p|p]; unfold pretty, pretty_Z; [reflexivity|..].
  - apply pretty_N_no_underscore.
  - rewrite no_underscore_app.
    change (pretty p) with (pretty (N.pos p)).
    rewrite pretty_N_no_underscore. reflexivity.
Qed.

(** Two texts without underscore that are followed by one: what comes
    before the first underscore, and what comes after, are determined. *)
Lemma append_underscore_inj (a b s t : string) :
  no_underscore a = true → no_underscore b = true →
  a +:+ String underscore s = b +:+ String underscore t →
  a = b ∧ s = t.
Proof.
  revert b. induction a as [|c a IH]; intros [|d b] Ha Hb Heq;
    change (String ?x ?y +:+ ?z) with (String x (y +:+ z)) in Heq;
    change (EmptyString +:+ ?z) with z in Heq;
    cbn [no_underscore] in Ha, Hb.
  - injection Heq as ->. split; reflexivity.
  - injection Heq as <- _. rewrite Ascii.eqb_refl in Hb. discriminate.
  - injection Heq as -> _. rewrite Ascii.eqb_refl in Ha. discriminate.
  - injection Heq as -> Heq.
    apply andb_true_iff in Ha as [_ Ha]. apply andb_true_iff in Hb as [_ Hb].
    destruct (IH b Ha Hb Heq) as [-> ->]. split; reflexivity.
Qed.

(** X2.  Two generated identifiers are equal exactly when the clock
    readings are equal and the random draws agree on the nine characters
    that are kept of them: identifiers generated in different milliseconds
    never collide. *)
Theorem generateId_injective (now1 now2 : Z) (random1 random2 : string) :
  OfflineStorageService._generateId now1 random1
    = OfflineStorageService._generateId now2 random2
  ↔ now1 = now2
    ∧ String.substring 2 9 random1 = String.substring 2 9 random2.
Proof.
  unfold OfflineStorageService._generateId. split.
  - intros Heq. cbn in Heq. injection Heq as Heq.
    apply (append_underscore_inj (pretty now1) (pretty now2)) in Heq
      as [Hnow Hrandom]; try apply pretty_Z_no_underscore.
    split; [|exact Hrandom]. apply (inj pretty), Hnow.
  - intros [-> ->]. reflexivity.
Qed.

(** ** Saving and loading the collection *)

(** X3.  [_saveAllPlayers] never throws.  When it returns [true], what
    [_getAllPlayers] then loads is the collection that was saved, and no
    other key has changed; when it returns [false], the host is as it
    was. *)
Theorem saveAllPlayers_then_getAllPlayers (players : JSON) (w : Window) :
  ∃ saved w',
    OfflineStorageService._saveAllPlayers players w = (Normal saved, w')
    ∧ if saved
      then OfflineStorageService._getAllPlayers w' = (Normal players, w')
           ∧ (∀ key, key ≠ PLAYERS → localStorage w' !! key = localStorage w !! key)
           ∧ delivered w' = delivered w
      else w' = w.
Proof.
  rewrite saveAllPlayers_run.
  destruct (quota w (localStorage w) PLAYERS (Serialized players)).
  - eexists true, _. split; [reflexivity|]. split; [|split].
    + rewrite getAllPlayers_run. unfold collection. cbn [localStorage with_items].
      rewrite lookup_insert_eq. reflexivity.
    + intros key Hkey. cbn [localStorage with_items].
      apply lookup_insert_ne. congruence.
    + reflexivity.
  - eexists false, w. split; reflexivity.
Qed.

(** ** init *)

Lemma init_notifies_shape
    (this : OfflineStorageService.t) (handler : option Handler) (w : Window) :
  ∃ w',
    OfflineStorageService.init this handler w
      = (Normal ({| OfflineStorageService.dataHandler := handler;
                    OfflineStorageService.initialized := true |},
                 match callback_of handler with
                 | Some f => reported (f (collection w))
                 | None => OfflineResult.ok undefined
                 end), w')
    ∧ DEBUG_MODE w' = DEBUG_MODE w.
Proof.
  unfold OfflineStorageService.init. cbv zeta.
  unfold bind at 1, try_catch.
  erewrite bind_run by apply getAllPlayers_run.
  unfold bind at 1, OfflineStorageService.notify, callback_of.
  cbn [OfflineStorageService.dataHandler].
  destruct handler as [[[f|]]|]; cbn [onDataChanged];
    try (eexists; split; reflexivity).
  unfold bind, ret, call_onDataChanged, reported.
  destruct (f (collection w)); eexists; split; reflexivity.
Qed.

(** X4.  [init] never throws and writes nothing.  It registers the
    handler and marks the store initialized whatever its result; a handler
    with a callback is called exactly once, with the collection as it is
    stored, and the result is a failure exactly when that callback
    throws. *)
Theorem init_notifies_once
    (this : OfflineStorageService.t) (handler : option Handler) (w : Window) :
  ∃ w',
    OfflineStorageService.init this handler w
      = (Normal ({| OfflineStorageService.dataHandler := handler;
                    OfflineStorageService.initialized := true |},
                 match callback_of handler with
                 | Some f => reported (f (collection w))
                 | None => OfflineResult.ok undefined
                 end), w')
    ∧ localStorage w' = localStorage w
    ∧ delivered w' =
        match callback_of handler with
        | Some f => delivered w ++ [collection w]
        | None => delivered w
        end.
Proof.
  unfold OfflineStorageService.init. cbv zeta.
  unfold bind at 1, try_catch.
  erewrite bind_run by apply getAllPlayers_run.
  unfold bind at 1, OfflineStorageService.notify, callback_of.
  cbn [OfflineStorageService.dataHandler].
  destruct handler as [[[f|]]|]; cbn [onDataChanged];
    try (eexists; split; [reflexivity|split; reflexivity]).
  unfold bind, ret, call_onDataChanged, reported.
  destruct (f (collection w)); eexists; split; try reflexivity; split; reflexivity.
Qed.

(** X5.  A store is usable after [init] even when [init] has reported a
    failure: with the debug flag off, the [read] that follows returns the
    stored collection as a success. *)
Theorem init_then_read
    (this : OfflineStorageService.t) (handler : option Handler) (w : Window) :
  DEBUG_MODE w = false →
  ∃ this' result w',
    OfflineStorageService.init this handler w = (Normal (this', result), w')
    ∧ OfflineStorageService.read this' w'
      = (Normal (OfflineResult.ok (Some (collection w))), w').
Proof.
  intros Hdebug.
  destruct (init_run this handler w) as (r & w' & Hinit & Hitems & _).
  eexists _, r, w'. split; [exact Hinit|].
  assert (Hdebug' : DEBUG_MODE w' = DEBUG_MODE w).
  { destruct (init_notifies_shape this handler w) as (w1 & H1 & Hd).
    rewrite H1 in Hinit. injection Hinit as _ <-. exact Hd. }
  assert (Hc : collection w' = collection w).
  { unfold collection. rewrite Hitems. reflexivity. }
  rewrite <- Hc.
  unfold OfflineStorageService.read, try_catch.
  erewrite bind_run by reflexivity.
  erewrite bind_run by apply getAllPlayers_run.
  erewrite bind_run by reflexivity.
  rewrite Hdebug', Hdebug. reflexivity.
Qed.

Lemma init_then_read_witness :
  let angry := handler_of (λ _, Some (Thrown (JStr "no"))) in
  ∃ this' result w',
    OfflineStorageService.init Examples.uninitialized (Some angry)
      (Examples.holding [Examples.player_with_id "A" "x1"])
    = (Normal (this', result), w')
    ∧ OfflineResult.get_isError result = true
    ∧ OfflineStorageService.read this' w'
      = (Normal (OfflineResult.ok (Some (JArr [Examples.player_with_id "A" "x1"]))), w').
Proof.
  intros angry.
  destruct (init_then_read Examples.uninitialized (Some angry)
              (Examples.holding [Examples.player_with_id "A" "x1"]))
    as (this' & result & w' & Hinit & Hread).
  - reflexivity.
  - exists this', result, w'. split; [exact Hinit|]. split; [|exact Hread].
    vm_compute in Hinit. injection Hinit as _ <- _. reflexivity.
Defined.

(** ** What a call writes is what it announces *)

Lemma notify_run (this : OfflineStorageService.t) (players : JSON) (w : Window) :
  OfflineStorageService.notify this (ret players) w =
    match callback_of (OfflineStorageService.dataHandler this) with
    | Some f => call_onDataChanged f players w
    | None => (Normal tt, w)
    end.
Proof.
  unfold OfflineStorageService.notify, callback_of.
  destruct (OfflineStorageService.dataHandler this) as [[[f|]]|]; reflexivity.
Qed.

Lemma save_and_notify_shape
    (this : OfflineStorageService.t) (players : JSON) (w : Window) :
  aborts_or_saves this w
    ((let* saved := OfflineStorageService._saveAllPlayers players in
      throw_if (negb saved) (Error "Failed to save to localStorage") >>
      OfflineStorageService.notify this (ret players) >>
      ret (OfflineResult.ok undefined)) w).
Proof.
  pose proof (saveAllPlayers_run players w) as Hsave.
  destruct (quota w (localStorage w) PLAYERS (Serialized players)).
  - right. exists players. unfold try_catch, after_saving.
    erewrite bind_run by exact Hsave.
    erewrite bind_run by reflexivity.
    unfold bind at 1. rewrite notify_run.
    destruct (callback_of (OfflineStorageService.dataHandler this)) as [f|];
      [|reflexivity].
    unfold call_onDataChanged, reported. destruct (f players); reflexivity.
  - left. eexists. erewrite bind_run by exact Hsave. reflexivity.
Qed.

(** X6.  Each of create, update and delete either returns a failure and
    leaves the host exactly as it was, or has written one collection under
    the players key and nothing else.  In the second case a registered
    callback has been called exactly once, with exactly the collection that
    was written, and the call reports a failure exactly when the callback
    throws, although the write stays; without a callback nothing is
    delivered and the call succeeds. *)
Theorem call_announces_what_it_wrote
    (this : OfflineStorageService.t) (c : call) (w : Window) :
  (∃ e, perform this c w = (Normal (OfflineResult.error e), w))
  ∨ (∃ players, perform this c w = after_saving this players w).
Proof.
  assert (Hwrap : ∀ body : M OfflineResult.t,
            aborts_or_saves this w (body w) →
            (∃ e, try_catch body (λ error, ret (OfflineResult.error error)) w
                  = (Normal (OfflineResult.error e), w))
            ∨ (∃ players,
                 try_catch body (λ error, ret (OfflineResult.error error)) w
                 = after_saving this players w)).
  { intros body [[e H]|[players H]]; [left; exists e | right; exists players].
    - unfold try_catch. rewrite H. reflexivity.
    - exact H. }
  destruct c as [record now random36|record|record]; cbn [perform];
    apply Hwrap.
  - unfold bind at 1.
    destruct (OfflineStorageService.initialized this); cbn [negb throw_if];
      [|aborted].
    unfold ret at 1. unfold bind at 1. rewrite getAllPlayers_run.
    destruct (collection w) as [| | | |xs|]; try aborted.
    unfold bind at 1. cbn [Array_push]. unfold ret at 1.
    apply save_and_notify_shape.
  - unfold bind at 1.
    destruct (OfflineStorageService.initialized this); cbn [negb throw_if];
      [|aborted].
    unfold ret at 1. unfold bind at 1. rewrite get_backendId_run.
    destruct record; try aborted.
    cbn [identifier]. unfold bind at 1.
    destruct (o !! "__backendId") as [id|]; [|aborted].
    cbn [truthy_opt]. destruct (truthy id); [|aborted].
    cbn [negb throw_if]. unfold ret at 1. unfold bind at 1.
    rewrite getAllPlayers_run. unfold bind at 1.
    destruct (collection w) as [| | | |xs|]; try aborted.
    cbn [Array_findIndex].
    destruct (findIndex_from_pure (Some id) xs 0 w) as [[r|e] Hr]; rewrite Hr;
      [|aborted].
    unfold bind at 1.
    destruct (r =? -1); cbn [throw_if]; [aborted|].
    unfold ret at 1. unfold bind at 1. unfold Array_set.
    destruct (decide (Z.to_nat r < length xs)%nat); unfold ret at 1;
      apply save_and_notify_shape.
  - unfold bind at 1.
    destruct (OfflineStorageService.initialized this); cbn [negb throw_if];
      [|aborted].
    unfold ret at 1. unfold bind at 1. rewrite get_backendId_run.
    destruct record; try aborted.
    cbn [identifier]. unfold bind at 1.
    destruct (o !! "__backendId") as [id|]; [|aborted].
    cbn [truthy_opt]. destruct (truthy id); [|aborted].
    cbn [negb throw_if]. unfold ret at 1. unfold bind at 1.
    rewrite getAllPlayers_run. unfold bind at 1.
    destruct (collection w) as [| | | |xs|]; try aborted.
    cbn [Array_filter]. unfold bind at 1.
    destruct (filter_list_pure (Some id) xs w) as [[ys|e] Hr]; rewrite Hr;
      [|aborted].
    unfold ret at 1. unfold bind at 1. cbn [get]. unfold ret at 1.
    unfold bind at 1. unfold ret at 1. unfold bind at 1.
    cbn [String.eqb Ascii.eqb Bool.eqb strict_eq].
    destruct (Z.of_nat (length xs) =? Z.of_nat (length ys)); cbn [throw_if];
      [aborted|].
    unfold ret at 1. apply save_and_notify_shape.
Qed.

(** ** clearAll, whatever the host does *)

Lemma clearAll_run (this : OfflineStorageService.t) (w : Window) :
  let removed := with_items (delete CURRENT_PLAYER) (with_items (delete PLAYERS) w) in
  let announce (w1 : Window) : completion bool * Window :=
    match callback_of (OfflineStorageService.dataHandler this) with
    | Some f => (Normal (match f (JArr []) with None => true | Some _ => false end),
                 with_delivery (JArr []) w1)
    | None => (Normal true, w1)
    end in
  OfflineStorageService.clearAll this w =
    if quota w (localStorage removed) PLAYERS (Serialized (JArr [])) then
      let emptied := with_items (insert PLAYERS (Serialized (JArr []))) removed in
      if text_truthy (localStorage w !! SETTINGS) then announce emptied
      else if quota w (localStorage emptied) SETTINGS (Serialized (JObj ∅))
           then announce (with_items (insert SETTINGS (Serialized (JObj ∅))) emptied)
           else (Normal false, emptied)
    else (Normal false, removed).
Proof.
  intros removed announce. destruct keys_distinct as (Hpc & Hps & Hcs).
  assert (Hannounce : ∀ w1,
            try_catch (OfflineStorageService.notify this (ret (JArr [])) >> ret true)
              (λ error, ret false) w1 = announce w1).
  { intros w1. unfold try_catch, bind at 1. rewrite notify_run. subst announce.
    cbv beta. destruct (callback_of _) as [f|]; [|reflexivity].
    unfold call_onDataChanged. destruct (f (JArr [])); reflexivity. }
  unfold OfflineStorageService.clearAll.
  assert (Hp : localStorage removed !! PLAYERS = None).
  { subst removed. cbn [localStorage with_items].
    rewrite lookup_delete_ne, lookup_delete_eq; done. }
  assert (Hs : localStorage (with_items (insert PLAYERS (Serialized (JArr []))) removed)
                 !! SETTINGS = localStorage w !! SETTINGS).
  { subst removed. cbn [localStorage with_items].
    rewrite lookup_insert_ne, !lookup_delete_ne; done. }
  pose proof (initializeStorage_run removed) as Hinit. cbv zeta in Hinit.
  rewrite Hp in Hinit. cbn [text_truthy] in Hinit.
  change (quota removed) with (quota w) in Hinit.
  destruct (quota w (localStorage removed) PLAYERS (Serialized (JArr []))).
  - rewrite Hs in Hinit.
    destruct (text_truthy (localStorage w !! SETTINGS)).
    + rewrite <- Hannounce. unfold try_catch.
      erewrite bind_run by reflexivity. erewrite bind_run by reflexivity.
      erewrite bind_run by exact Hinit. reflexivity.
    + unfold setItem in Hinit. cbn [quota with_items] in Hinit.
      change (quota removed) with (quota w) in Hinit.
      destruct (quota w _ SETTINGS _).
      * rewrite <- Hannounce. unfold try_catch.
        erewrite bind_run by reflexivity. erewrite bind_run by reflexivity.
        erewrite bind_run by exact Hinit. reflexivity.
      * erewrite try_catch_throws; [reflexivity|].
        erewrite bind_run by reflexivity. erewrite bind_run by reflexivity.
        erewrite bind_throws by exact Hinit. reflexivity.
  - erewrite try_catch_throws; [reflexivity|].
    erewrite bind_run by reflexivity. erewrite bind_run by reflexivity.
    erewrite bind_throws by exact Hinit. reflexivity.
Qed.

(** X7.  [clearAll] never throws, and whatever it returns the collection
    is empty afterwards and the current-player key is gone: when the host
    refuses the write of the empty collection the method returns [false],
    but the players key has already been removed. *)
Theorem clearAll_always_empties (this : OfflineStorageService.t) (w : Window) :
  ∃ cleared w',
    OfflineStorageService.clearAll this w = (Normal cleared, w')
    ∧ collection w' = JArr []
    ∧ localStorage w' !! CURRENT_PLAYER = None
    ∧ (quota w (delete CURRENT_PLAYER (delete PLAYERS (localStorage w)))
         PLAYERS (Serialized (JArr [])) = false →
       cleared = false ∧ localStorage w' !! PLAYERS = None).
Proof.
  destruct keys_distinct as (Hpc & Hps & Hcs).
  rewrite clearAll_run. cbv zeta. cbn [localStorage with_items].
  set (removed := delete CURRENT_PLAYER (delete PLAYERS (localStorage w))).
  assert (Hp : removed !! PLAYERS = None)
    by (subst removed; rewrite lookup_delete_ne, lookup_delete_eq; done).
  assert (Hc : removed !! CURRENT_PLAYER = None)
    by (subst removed; apply lookup_delete_eq).
  set (emptied := <[PLAYERS:=Serialized (JArr [])]> removed).
  assert (Hep : emptied !! PLAYERS = Some (Serialized (JArr [])))
    by apply lookup_insert_eq.
  assert (Hec : emptied !! CURRENT_PLAYER = None)
    by (subst emptied; rewrite lookup_insert_ne by done; exact Hc).
  assert (Hsp : ∀ v, <[SETTINGS:=v]> emptied !! PLAYERS = Some (Serialized (JArr [])))
    by (intros v; rewrite lookup_insert_ne by done; exact Hep).
  assert (Hsc : ∀ v, <[SETTINGS:=v]> emptied !! CURRENT_PLAYER = None)
    by (intros v; rewrite lookup_insert_ne by done; exact Hec).
  destruct (quota w removed PLAYERS (Serialized (JArr []))).
  - destruct (text_truthy (localStorage w !! SETTINGS));
      [|destruct (quota w _ SETTINGS _)];
      try destruct (callback_of _) as [f|];
      eexists _, _; (split; [reflexivity|]);
      unfold collection; cbn [localStorage with_items with_delivery];
      fold removed; fold emptied; rewrite ?Hsp, ?Hsc, ?Hep, ?Hec;
      (split; [reflexivity|split; [reflexivity|intros Hq; discriminate Hq]]).
  - eexists false, _. split; [reflexivity|].
    unfold collection. cbn [localStorage with_items]. fold removed.
    rewrite Hp, Hc. repeat split.
Qed.

(** X8.  On a host that accepts writes, [clearAll] calls a registered
    callback exactly once, with the empty collection, and returns [true]
    unless that callback throws; without a callback it returns [true] and
    delivers nothing. *)
Theorem clearAll_announces_empty (this : OfflineStorageService.t) (w : Window) :
  accepts_all w →
  ∃ w',
    OfflineStorageService.clearAll this w =
      (Normal (match callback_of (OfflineStorageService.dataHandler this) with
               | Some f => match f (JArr []) with None => true | Some _ => false end
               | None => true
               end), w')
    ∧ delivered w' =
        match callback_of (OfflineStorageService.dataHandler this) with
        | Some _ => delivered w ++ [JArr []]
        | None => delivered w
        end
    ∧ localStorage w' !! PLAYERS = Some (Serialized (JArr [])).
Proof.
  intros Hacc. destruct keys_distinct as (Hpc & Hps & Hcs).
  rewrite clearAll_run. cbv zeta. rewrite !Hacc.
  destruct (text_truthy (localStorage w !! SETTINGS));
    destruct (callback_of _) as [f|];
    eexists; (split; [reflexivity|]);
    cbn [localStorage delivered with_items with_delivery];
    rewrite ?(lookup_insert_ne _ SETTINGS), lookup_insert_eq by done;
    split; reflexivity.
Qed.

Lemma clearAll_announces_empty_witness :
  let w := Examples.holding [Examples.player_with_id "A" "x1"] in
  ∃ w',
    OfflineStorageService.clearAll Examples.ready w = (Normal true, w')
    ∧ delivered w' = [JArr []]
    ∧ localStorage w' !! PLAYERS = Some (Serialized (JArr [])).
Proof.
  intros w.
  destruct (clearAll_announces_empty Examples.ready w) as (w' & Hrun & Hd & Hp).
  - intros m key value. reflexivity.
  - exists w'. split; [exact Hrun|]. split; [exact Hd|exact Hp].
Defined.

(** ** exportData and importData at the edges *)

(** X9.  [exportData] never throws, writes nothing and notifies nobody.
    It returns [null] exactly when the settings text is a non-empty text
    that does not parse; otherwise it returns the text of an object with
    exactly the fields [players], [settings] and [exportDate], where a
    missing or unparseable players text is exported as the empty list and
    missing settings as the empty object. *)
Theorem exportData_reads_only
    (this : OfflineStorageService.t) (exportDate : string) (w : Window) :
  ∃ out,
    OfflineStorageService.exportData this exportDate w = (Normal out, w)
    ∧ (out = None ↔ localStorage w !! SETTINGS = Some Malformed)
    ∧ (∀ snapshot, out = Some snapshot →
         ∃ data,
           snapshot = Serialized (JObj data)
           ∧ data !! "players" = Some (collection w)
           ∧ data !! "settings" = settings_of w
           ∧ data !! "exportDate" = Some (JStr exportDate)
           ∧ dom data = {[ "players"; "settings"; "exportDate" ]}).
Proof.
  rewrite exportData_run. eexists. split; [reflexivity|].
  unfold settings_of.
  destruct (localStorage w !! SETTINGS) as [[v| |]|]; split;
    try (split; [discriminate | congruence]);
    try (split; [reflexivity | reflexivity]);
    intros snapshot [= <-]; eexists; (split; [reflexivity|]);
    repeat split; try reflexivity;
    rewrite !dom_insert_L, dom_singleton_L; set_solver.
Qed.

(** X10.  [importData] returns [false] and leaves the host as it was,
    without a write or a notification, when it is given [null], the empty
    text, a text that does not parse, or the text of [null]. *)
Theorem importData_rejects
    (this : OfflineStorageService.t) (jsonString : option text) (w : Window) :
  jsonString ∈ [None; Some EmptyText; Some Malformed; Some (Serialized JNull)] →
  OfflineStorageService.importData this jsonString w = (Normal false, w).
Proof.
  intros Hin. repeat (apply elem_of_cons in Hin as [->|Hin]; [reflexivity|]).
  inversion Hin.
Qed.

Lemma importData_rejects_witness :
  OfflineStorageService.importData Examples.ready (Some Malformed)
    (Examples.holding [Examples.player_with_id "A" "x1"])
  = (Normal false, Examples.holding [Examples.player_with_id "A" "x1"]).
Proof.
  apply (importData_rejects Examples.ready (Some Malformed)).
  apply elem_of_cons. right. apply elem_of_cons. right. apply elem_of_cons. left.
  reflexivity.
Defined.

Lemma get_field_run (data : JSON) (key : string) (w : Window) :
  data ≠ JNull → String.eqb key "length" = false →
  get data key w = (Normal (field data key), w).
Proof.
  intros Hdata Hkey. destruct data; try reflexivity; [contradiction|..];
    cbn [get field]; rewrite Hkey; reflexivity.
Qed.

(** X11.  A snapshot that parses to anything but [null] and has no truthy
    [players] and no truthy [settings], such as the text of the empty
    object or of a number, is accepted: [importData] writes nothing, yet
    it calls a registered callback with the empty collection, whatever the
    stored collection is, and returns [true] unless the callback throws. *)
Theorem importData_nothing_to_import
    (this : OfflineStorageService.t) (data : JSON) (w : Window) :
  data ≠ JNull →
  truthy_opt (field data "players") = false →
  truthy_opt (field data "settings") = false →
  OfflineStorageService.importData this (Some (Serialized data)) w =
    match callback_of (OfflineStorageService.dataHandler this) with
    | Some f => (Normal (match f (JArr []) with None => true | Some _ => false end),
                 with_delivery (JArr []) w)
    | None => (Normal true, w)
    end.
Proof.
  intros Hdata Hp Hs.
  pose proof (get_field_run data "players" w Hdata eq_refl) as Hgp.
  pose proof (get_field_run data "settings" w Hdata eq_refl) as Hgs.
  unfold OfflineStorageService.importData, try_catch.
  erewrite bind_run by reflexivity.
  erewrite bind_run by exact Hgp. rewrite Hp. cbn [when].
  erewrite bind_run by reflexivity.
  erewrite bind_run by exact Hgs. rewrite Hs. cbn [when].
  erewrite bind_run by reflexivity.
  unfold bind at 1, OfflineStorageService.notify, callback_of.
  destruct (OfflineStorageService.dataHandler this) as [[[f|]]|];
    cbn [onDataChanged]; try reflexivity.
  erewrite bind_run by (erewrite bind_run by exact Hgp; rewrite Hp; reflexivity).
  unfold call_onDataChanged. destruct (f (JArr [])); reflexivity.
Qed.

Lemma importData_nothing_to_import_witness :
  let w := Examples.holding [Examples.player_with_id "A" "x1"] in
  OfflineStorageService.importData Examples.ready (Some (Serialized (JObj ∅))) w
    = (Normal true, with_delivery (JArr []) w)
  ∧ collection (with_delivery (JArr []) w) = JArr [Examples.player_with_id "A" "x1"].
Proof.
  intros w. split; [|reflexivity].
  apply (importData_nothing_to_import Examples.ready (JObj ∅) w).
  - discriminate.
  - reflexivity.
  - reflexivity.
Defined.

(** X12.  [importData] is not atomic.  When the snapshot carries a truthy
    collection and truthy settings and the host accepts the first write
    but refuses the second, the method returns [false] and notifies
    nobody, yet the stored collection has been replaced. *)
Theorem importData_partial_write
    (this : OfflineStorageService.t) (data : gmap string JSON)
    (players settings : JSON) (w : Window) :
  data !! "players" = Some players → truthy players = true →
  data !! "settings" = Some settings → truthy settings = true →
  quota w (localStorage w) PLAYERS (Serialized players) = true →
  quota w (<[PLAYERS := Serialized players]> (localStorage w))
    SETTINGS (Serialized settings) = false →
  OfflineStorageService.importData this (Some (Serialized (JObj data))) w
  = (Normal false, with_items (insert PLAYERS (Serialized players)) w).
Proof.
  intros Hp Htp Hs Hts Hq1 Hq2.
  set (w1 := with_items (insert PLAYERS (Serialized players)) w).
  assert (H1 : setItem PLAYERS (Serialized players) w = (Normal tt, w1)).
  { unfold setItem. rewrite Hq1. reflexivity. }
  assert (H2 : setItem SETTINGS (Serialized settings) w1
               = (Abrupt QuotaExceededError, w1)).
  { unfold setItem. cbn [quota localStorage with_items w1]. rewrite Hq2. reflexivity. }
  unfold OfflineStorageService.importData.
  erewrite try_catch_throws; [reflexivity|].
  erewrite bind_run by reflexivity.
  erewrite bind_run by reflexivity.
  rewrite Hp. cbn [truthy_opt default]. rewrite Htp. cbn [when].
  erewrite bind_run by exact H1.
  erewrite bind_run by reflexivity.
  rewrite Hs. cbn [truthy_opt default]. rewrite Hts. cbn [when].
  erewrite bind_throws by exact H2. reflexivity.
Qed.

Lemma importData_partial_write_witness :
  let w := {| localStorage := {[ PLAYERS := Serialized (JArr []) ]};
              quota := λ _ key _, String.eqb key PLAYERS;
              DEBUG_MODE := false; dataSdk := None; delivered := [] |} in
  let imported := JArr [Examples.player_with_id "A" "x1"] in
  let data : gmap string JSON :=
    {[ "players" := imported; "settings" := JObj {[ "theme" := JStr "dark" ]} ]} in
  OfflineStorageService.importData Examples.ready (Some (Serialized (JObj data))) w
  = (Normal false, with_items (insert PLAYERS (Serialized imported)) w).
Proof.
  intros w imported data.
  apply (importData_partial_write Examples.ready data imported
           (JObj {[ "theme" := JStr "dark" ]}) w); reflexivity.
Defined.

(** ** read, and a snapshot restored into another store *)

(** X13.  On an initialized store, with the debug flag off, [read] never
    fails: it changes nothing and returns the collection, which is the
    empty list when the players key is missing, empty or unparseable. *)
Theorem read_returns_collection (this : OfflineStorageService.t) (w : Window) :
  OfflineStorageService.initialized this = true →
  DEBUG_MODE w = false →
  OfflineStorageService.read this w
    = (Normal (OfflineResult.ok (Some (collection w))), w)
  ∧ (text_truthy (localStorage w !! PLAYERS) = false
     ∨ localStorage w !! PLAYERS = Some Malformed →
     OfflineStorageService.read this w
       = (Normal (OfflineResult.ok (Some (JArr []))), w)).
Proof.
  intros Hinit Hdebug.
  pose proof (read_succeeds this w Hinit (or_introl Hdebug)) as Hread.
  split; [exact Hread|]. intros Hmissing. rewrite Hread. unfold collection.
  destruct Hmissing as [Hfalsy| ->]; [|reflexivity].
  destruct (localStorage w !! PLAYERS) as [[v| |]|]; try reflexivity. discriminate.
Qed.

Lemma read_returns_collection_witness :
  let w := with_items (delete PLAYERS) Examples.fresh_window in
  OfflineStorageService.read Examples.ready w
  = (Normal (OfflineResult.ok (Some (JArr []))), w).
Proof.
  intros w.
  destruct (read_returns_collection Examples.ready w) as [_ Hmissing];
    [reflexivity|reflexivity|].
  apply Hmissing. left. reflexivity.
Defined.

(** X14.  A snapshot exported from one store restores another: when the
    exported collection is an array, importing the snapshot into any
    initialized store whose host accepts writes and whose callback returns
    makes [read] on that store return the exported collection. *)
Theorem snapshot_restores_other_store
    (source target : OfflineStorageService.t) (exportDate : string)
    (w1 w2 : Window) (xs : list JSON) :
  collection w1 = JArr xs →
  localStorage w1 !! SETTINGS ≠ Some Malformed →
  OfflineStorageService.initialized target = true →
  accepts_all w2 →
  quiet target →
  ∃ snapshot w2',
    OfflineStorageService.exportData source exportDate w1 = (Normal (Some snapshot), w1)
    ∧ OfflineStorageService.importData target (Some snapshot) w2 = (Normal true, w2')
    ∧ OfflineStorageService.read target w2'
      = (Normal (OfflineResult.ok (Some (JArr xs))), w2').
Proof.
  intros Hxs Hsettings Hinit Hacc Hq.
  pose proof (exportData_run source exportDate w1) as Hexport.
  destruct (settings_of w1) as [settings|] eqn:Es.
  2:{ unfold settings_of in Es.
      destruct (localStorage w1 !! SETTINGS) as [[v| |]|]; congruence. }
  destruct (import_restores_export source target exportDate w1 w2 _ Hexport Hacc Hq)
    as (w2' & Himport & Hc & _).
  eexists _, w2'. split; [exact Hexport|]. split; [exact Himport|].
  rewrite Hxs in Hc. specialize (Hc eq_refl).
  rewrite (read_succeeds target w2' Hinit), Hc; [reflexivity|].
  right. rewrite Hc. discriminate.
Qed.

Lemma snapshot_restores_other_store_witness :
  let w1 := Examples.holding [Examples.player_with_id "A" "x1"] in
  let w2 := Examples.holding [Examples.player_with_id "B" "x2"; Examples.player_with_id "C" "x3"] in
  ∃ snapshot w2',
    OfflineStorageService.exportData Examples.uninitialized "2024-01-01T00:00:00.000Z" w1
      = (Normal (Some snapshot), w1)
    ∧ OfflineStorageService.importData Examples.ready (Some snapshot) w2 = (Normal true, w2')
    ∧ OfflineStorageService.read Examples.ready w2'
      = (Normal (OfflineResult.ok (Some (JArr [Examples.player_with_id "A" "x1"]))), w2').
Proof.
  intros w1 w2.
  apply (snapshot_restores_other_store Examples.uninitialized Examples.ready
           "2024-01-01T00:00:00.000Z" w1 w2 [Examples.player_with_id "A" "x1"]).
  - reflexivity.
  - vm_compute. discriminate.
  - reflexivity.
  - intros m key value. reflexivity.
  - intros h f players Hh Hf. vm_compute in Hh. injection Hh as <-.
    vm_compute in Hf. injection Hf as <-. reflexivity.
Defined.

(** ** How create, update and delete compose *)

(** The end of a call that has written [players]: the notification and
    the result that is made of its completion. *)
Lemma notified_is_after_saving
    (this : OfflineStorageService.t) (players : JSON) (w : Window) :
  match OfflineStorageService.notify this (ret players)
          (with_items (insert PLAYERS (Serialized players)) w) with
  | (Normal _, w') => (Normal (OfflineResult.ok undefined), w')
  | (Abrupt e, w') => (Normal (OfflineResult.error e), w')
  end = after_saving this players w.
Proof.
  rewrite notify_run. unfold after_saving. cbv zeta.
  destruct (callback_of _) as [f|]; [|reflexivity].
  unfold call_onDataChanged, reported. destruct (f players); reflexivity.
Qed.

(** What [delete] keeps is what [filter] keeps: the entries that do not
    carry the identifier. *)
Lemma remove_matching_filter (id : JSON) (xs : list JSON) :
  Replay.remove_matching id xs = List.filter (λ p, negb (carries id p)) xs.
Proof.
  induction xs as [|p ps IH]; [reflexivity|].
  cbn [Replay.remove_matching List.filter]. unfold Replay.matches.
  destruct (carries id p); cbn [negb]; rewrite IH; reflexivity.
Qed.

Lemma remove_matching_app (id : JSON) (xs ys : list JSON) :
  Replay.remove_matching id (xs ++ ys)
  = Replay.remove_matching id xs ++ Replay.remove_matching id ys.
Proof.
  induction xs as [|p ps IH]; [reflexivity|]. cbn.
  destruct (Replay.matches id p); [exact IH|]. cbn. f_equal. exact IH.
Qed.

Lemma fresh_not_carried (id : JSON) (xs : list JSON) :
  Some id ∉ identifier <$> xs → existsb (carries id) xs = false.
Proof.
  intros Hfresh. induction xs as [|p ps IH]; [reflexivity|].
  rewrite fmap_cons in Hfresh. apply not_elem_of_cons in Hfresh as [Hp Hps].
  cbn [existsb]. rewrite (IH Hps), orb_false_r. unfold carries.
  destruct (strict_eq (identifier p) (Some id)) eqn:E; [|reflexivity].
  apply strict_eq_true in E. congruence.
Qed.

Lemma removed_not_carried (id : JSON) (xs : list JSON) :
  existsb (carries id) (Replay.remove_matching id xs) = false.
Proof.
  induction xs as [|p ps IH]; [reflexivity|]. cbn [Replay.remove_matching].
  unfold Replay.matches. destruct (carries id p) eqn:E; [exact IH|].
  cbn [existsb]. rewrite E, IH. reflexivity.
Qed.

(** X15.  Deleting a record right after creating it restores the
    collection: on an initialized store over a well-formed collection, when
    the host accepts writes and the generated identifier is new, create
    stores the collection with the record appended, and a delete that
    names the generated identifier then stores the collection as it was
    before. *)
Theorem create_then_delete_restores
    (this : OfflineStorageService.t) (record : JSON) (now : Z) (random36 : string)
    (w : Window) (xs : list JSON) :
  let id := OfflineStorageService._generateId now random36 in
  OfflineStorageService.initialized this = true →
  accepts_all w →
  localStorage w !! PLAYERS = Some (Serialized (JArr xs)) →
  well_formed xs = true →
  Some (JStr id) ∉ identifier <$> xs →
  ∃ r1 w1 r2 w2,
    OfflineStorageService.create this record now random36 w = (Normal r1, w1)
    ∧ localStorage w1 !! PLAYERS
      = Some (Serialized (JArr (xs ++ [Replay.identified record id])))
    ∧ OfflineStorageService.delete this (JObj {[ "__backendId" := JStr id ]}) w1
      = (Normal r2, w2)
    ∧ localStorage w2 !! PLAYERS = Some (Serialized (JArr xs)).
Proof.
  intros id Hinit Hacc Hp Hwf Hfresh.
  destruct (perform_replays this (Create record now random36) w xs Hinit Hacc Hp Hwf)
    as (r1 & w1 & Hrun1 & Hacc1 & Hp1).
  pose proof (step_well_formed (Create record now random36) xs Hwf) as Hwf1.
  destruct (perform_replays this (Delete (JObj {[ "__backendId" := JStr id ]})) w1 _
              Hinit Hacc1 Hp1 Hwf1) as (r2 & w2 & Hrun2 & _ & Hp2).
  exists r1, w1, r2, w2. split; [exact Hrun1|]. split; [exact Hp1|].
  split; [exact Hrun2|]. rewrite Hp2. do 3 f_equal.
  cbn [Replay.step identifier]. rewrite lookup_singleton_eq.
  rewrite remove_matching_app.
  rewrite (no_match_remove (JStr id) xs (fresh_not_carried _ _ Hfresh)).
  cbn [Replay.remove_matching]. unfold Replay.matches, carries, Replay.identified.
  cbn [identifier]. rewrite lookup_insert_eq. cbn [strict_eq].
  rewrite String.eqb_refl. apply app_nil_r.
Qed.

Lemma create_then_delete_restores_witness :
  let xs := [Examples.player_with_id "A" "x1"] in
  let id := "offline_1700000000000_4fzyo82mv"%string in
  ∃ r1 w1 r2 w2,
    OfflineStorageService.create Examples.ready (Examples.player "B")
      1700000000000 "0.4fzyo82mvyr" (Examples.holding xs) = (Normal r1, w1)
    ∧ localStorage w1 !! PLAYERS
      = Some (Serialized (JArr [Examples.player_with_id "A" "x1";
                                Examples.player_with_id "B" id]))
    ∧ OfflineStorageService.delete Examples.ready (JObj {[ "__backendId" := JStr id ]}) w1
      = (Normal r2, w2)
    ∧ localStorage w2 !! PLAYERS = Some (Serialized (JArr xs)).
Proof.
  intros xs id.
  apply (create_then_delete_restores Examples.ready (Examples.player "B")
           1700000000000 "0.4fzyo82mvyr" (Examples.holding xs) xs).
  - reflexivity.
  - intros m key value. reflexivity.
  - reflexivity.
  - reflexivity.
  - intros H. vm_compute in H. apply list_elem_of_singleton in H. discriminate H.
Defined.

(** X16.  A delete leaves no entry carrying the identifier, so repeating
    it fails.  On an initialized store over a well-formed collection, when
    the host accepts writes, [delete] leaves as the stored collection the
    entries that do not carry the record's identifier, in their order; when
    some entry carried it, that collection is what was written and
    announced; and a second delete of the same record returns the
    "Record not found" failure and changes nothing. *)
Theorem delete_twice_not_found
    (this : OfflineStorageService.t) (record id : JSON) (w : Window) (xs : list JSON) :
  OfflineStorageService.initialized this = true →
  accepts_all w →
  localStorage w !! PLAYERS = Some (Serialized (JArr xs)) →
  well_formed xs = true →
  identifier record = Some id →
  truthy id = true →
  let remaining := List.filter (λ p, negb (carries id p)) xs in
  ∃ r1 w1,
    OfflineStorageService.delete this record w = (Normal r1, w1)
    ∧ localStorage w1 !! PLAYERS = Some (Serialized (JArr remaining))
    ∧ existsb (carries id) remaining = false
    ∧ (existsb (carries id) xs = true →
       OfflineStorageService.delete this record w
         = after_saving this (JArr remaining) w)
    ∧ OfflineStorageService.delete this record w1
      = (Normal (OfflineResult.error (Error "Record not found")), w1).
Proof.
  intros Hinit Hacc Hp Hwf Hid Ht remaining. subst remaining.
  rewrite <- remove_matching_filter.
  destruct (perform_replays this (Delete record) w xs Hinit Hacc Hp Hwf)
    as (r1 & w1 & Hrun1 & Hacc1 & Hp1).
  pose proof (step_well_formed (Delete record) xs Hwf) as Hwf1.
  cbn [Replay.step] in Hp1, Hwf1. rewrite Hid in Hp1, Hwf1.
  exists r1, w1. split; [exact Hrun1|]. split; [exact Hp1|].
  split; [apply removed_not_carried|]. split.
  - intros Hex.
    rewrite (delete_run this record id xs w Hinit Hid Ht
               (persisted_collection w _ Hp) (well_formed_no_null _ Hwf)).
    rewrite Hex. cbv zeta. rewrite Hacc. apply notified_is_after_saving.
  - rewrite (delete_run this record id _ w1 Hinit Hid Ht
               (persisted_collection w1 _ Hp1) (well_formed_no_null _ Hwf1)).
    rewrite removed_not_carried. reflexivity.
Qed.

Lemma delete_twice_not_found_witness :
  let a := Examples.player_with_id "A" "x1" in
  let b := Examples.player_with_id "B" "x2" in
  ∃ r1 w1,
    OfflineStorageService.delete Examples.ready a (Examples.holding [a; b; a])
      = (Normal r1, w1)
    ∧ localStorage w1 !! PLAYERS = Some (Serialized (JArr [b]))
    ∧ OfflineStorageService.delete Examples.ready a w1
      = (Normal (OfflineResult.error (Error "Record not found")), w1).
Proof.
  intros a b.
  destruct (delete_twice_not_found Examples.ready a (JStr "x1")
              (Examples.holding [a; b; a]) [a; b; a])
    as (r1 & w1 & Hrun & Hstored & _ & _ & Hagain); try reflexivity.
  - intros m key value. reflexivity.
  - exists r1, w1. split; [exact Hrun|]. split; [exact Hstored|exact Hagain].
Defined.

(** X17.  An update never adds, removes, reorders or re-identifies
    records: on an initialized store over a well-formed collection, when
    the host accepts writes, the collection stored after [update] has the
    same length and, position by position, the same identifiers as
    before. *)
Theorem update_keeps_identifiers
    (this : OfflineStorageService.t) (record : JSON) (w : Window) (xs : list JSON) :
  OfflineStorageService.initialized this = true →
  accepts_all w →
  localStorage w !! PLAYERS = Some (Serialized (JArr xs)) →
  well_formed xs = true →
  ∃ r w' xs',
    OfflineStorageService.update this record w = (Normal r, w')
    ∧ localStorage w' !! PLAYERS = Some (Serialized (JArr xs'))
    ∧ length xs' = length xs
    ∧ identifier <$> xs' = identifier <$> xs.
Proof.
  intros Hinit Hacc Hp Hwf.
  destruct (perform_replays this (Update record) w xs Hinit Hacc Hp Hwf)
    as (r & w' & Hrun & _ & Hp').
  exists r, w', (Replay.step (Update record) xs).
  split; [exact Hrun|]. split; [exact Hp'|].
  assert (Hids : identifier <$> Replay.step (Update record) xs = identifier <$> xs).
  { cbn [Replay.step]. destruct (identifier record) as [id|] eqn:Eid; [|reflexivity].
    apply replace_matching_identifiers, Eid. }
  split; [|exact Hids].
  rewrite <- (length_fmap identifier), Hids. apply length_fmap.
Qed.

Lemma update_keeps_identifiers_witness :
  let xs := [Examples.player_with_id "A" "x1"; Examples.player_with_id "B" "x2"] in
  ∃ r w' xs',
    OfflineStorageService.update Examples.ready (Examples.player_with_id "B2" "x2")
      (Examples.holding xs) = (Normal r, w')
    ∧ localStorage w' !! PLAYERS = Some (Serialized (JArr xs'))
    ∧ length xs' = 2%nat
    ∧ identifier <$> xs' = [Some (JStr "x1"); Some (JStr "x2")].
Proof.
  intros xs.
  apply (update_keeps_identifiers Examples.ready (Examples.player_with_id "B2" "x2")
           (Examples.holding xs) xs); try reflexivity.
  intros m key value. reflexivity.
Defined.

(** ** The mode manager in use *)

(** X18.  The probe changes nothing but the availability flag, which it
    sets to whether the remote binding is truthy, and returns that flag,
    whatever the mode.  In mode ['auto'], the service that is active right
    after a probe is the remote binding exactly when the binding is
    present. *)
Theorem probe_then_resolve (this : StorageModeManager.t) (w : Window) :
  ∃ probed,
    StorageModeManager.checkOnlineAvailability this w
      = (Normal (probed, truthy_opt (dataSdk w)), w)
    ∧ StorageModeManager.mode probed = StorageModeManager.mode this
    ∧ StorageModeManager.offlineService probed = StorageModeManager.offlineService this
    ∧ StorageModeManager.onlineAvailable probed = truthy_opt (dataSdk w)
    ∧ (StorageModeManager.mode this = JStr "auto" →
       StorageModeManager.getActiveService probed w
       = (Normal (if truthy_opt (dataSdk w)
                  then StorageModeManager.window_dataSdk_value (dataSdk w)
                  else StorageModeManager.this_offlineService
                         (StorageModeManager.offlineService this)), w)).
Proof.
  eexists. split; [reflexivity|].
  cbn [StorageModeManager.mode StorageModeManager.offlineService
       StorageModeManager.onlineAvailable].
  split; [reflexivity|]. split; [reflexivity|]. split; [reflexivity|].
  intros Hmode.
  unfold StorageModeManager.getActiveService, bind, window_dataSdk, ret.
  cbn [StorageModeManager.mode StorageModeManager.offlineService
       StorageModeManager.onlineAvailable].
  rewrite Hmode. cbn [strict_eq String.eqb Ascii.eqb Bool.eqb andb].
  destruct (truthy_opt (dataSdk w)); reflexivity.
Qed.

Lemma probe_then_resolve_witness :
  let w := {| localStorage := ∅; quota := λ _ _ _, true; DEBUG_MODE := false;
              dataSdk := Some (JObj ∅); delivered := [] |} in
  ∃ probed,
    StorageModeManager.checkOnlineAvailability Examples.manager w
      = (Normal (probed, true), w)
    ∧ StorageModeManager.getActiveService Examples.manager w
      = (Normal (StorageModeManager.this_offlineService Examples.uninitialized), w)
    ∧ StorageModeManager.getActiveService probed w
      = (Normal (StorageModeManager.window_dataSdk_value (Some (JObj ∅))), w).
Proof.
  intros w.
  destruct (probe_then_resolve Examples.manager w) as (probed & Hrun & _ & _ & _ & Hres).
  exists probed. split; [exact Hrun|]. split; [reflexivity|exact (Hres eq_refl)].
Defined.

Lemma manager_new_run (w : Window) :
  StorageModeManager.new w =
    match OfflineStorageService._initializeStorage w with
    | (Normal _, w') => (Normal new_manager, w')
    | (Abrupt e, w') => (Abrupt e, w')
    end.
Proof.
  unfold StorageModeManager.new, OfflineStorageService.new, bind, ret.
  destruct (OfflineStorageService._initializeStorage w) as [[[]|e] w']; reflexivity.
Qed.

Lemma service_new_run (w : Window) :
  OfflineStorageService.new w =
    match OfflineStorageService._initializeStorage w with
    | (Normal _, w') => (Normal new_service, w')
    | (Abrupt e, w') => (Abrupt e, w')
    end.
Proof.
  unfold OfflineStorageService.new, bind, ret.
  destruct (OfflineStorageService._initializeStorage w) as [[[]|e] w']; reflexivity.
Qed.

(** X19.  A manager as its constructor leaves it routes to its own
    offline service on every host, even when the remote binding is
    present, because no probe has been made yet; and that service has not
    been initialized, so that [read] on it fails. *)
Theorem new_manager_routes_offline (w w' : Window) (manager : StorageModeManager.t) :
  StorageModeManager.new w = (Normal manager, w') →
  ∀ host,
    StorageModeManager.getActiveService manager host
      = (Normal (StorageModeManager.this_offlineService
                   (StorageModeManager.offlineService manager)), host)
    ∧ OfflineStorageService.read (StorageModeManager.offlineService manager) host
      = (Normal (OfflineResult.error
                   (Error "Storage not initialized. Call init() first.")), host).
Proof.
  intros Hnew host. rewrite manager_new_run in Hnew.
  destruct (OfflineStorageService._initializeStorage w) as [[[]|e] w1];
    [|discriminate].
  injection Hnew as <- _. split; [|reflexivity].
  unfold StorageModeManager.getActiveService, bind, window_dataSdk, ret.
  cbn. rewrite andb_false_r. reflexivity.
Qed.

Lemma new_manager_routes_offline_witness :
  let w := {| localStorage := ∅; quota := λ _ _ _, true; DEBUG_MODE := false;
              dataSdk := Some (JObj ∅); delivered := [] |} in
  ∃ manager w',
    StorageModeManager.new w = (Normal manager, w')
    ∧ truthy_opt (dataSdk w') = true
    ∧ StorageModeManager.getActiveService manager w'
      = (Normal (StorageModeManager.this_offlineService
                   (StorageModeManager.offlineService manager)), w').
Proof.
  intros w.
  set (w' := with_items (insert SETTINGS (Serialized (JObj ∅)))
               (with_items (insert PLAYERS (Serialized (JArr []))) w)).
  assert (Hnew : StorageModeManager.new w = (Normal new_manager, w'))
    by reflexivity.
  exists new_manager, w'. split; [exact Hnew|]. split; [reflexivity|].
  apply (new_manager_routes_offline w w' new_manager Hnew w').
Defined.

(** X20.  After [setMode('offline')] the active service is the offline
    service on every host.  After [setMode('online')] it is the remote
    binding when the binding is present, whatever the availability flag
    says, and silently the offline service when it is not.  A rejected
    [setMode] changes nothing in what is resolved. *)
Theorem setMode_then_resolve (this : StorageModeManager.t) (w : Window) :
  let offline :=
    (Normal (StorageModeManager.this_offlineService
               (StorageModeManager.offlineService this)), w) in
  StorageModeManager.getActiveService
    (StorageModeManager.setMode this (JStr "offline")).1 w = offline
  ∧ StorageModeManager.getActiveService
      (StorageModeManager.setMode this (JStr "online")).1 w
    = (if truthy_opt (dataSdk w)
       then (Normal (StorageModeManager.window_dataSdk_value (dataSdk w)), w)
       else offline)
  ∧ (∀ value, (StorageModeManager.setMode this value).2 = false →
       StorageModeManager.getActiveService (StorageModeManager.setMode this value).1 w
       = StorageModeManager.getActiveService this w).
Proof.
  intros offline. split; [|split].
  - unfold StorageModeManager.getActiveService, bind, window_dataSdk, ret. cbn.
    reflexivity.
  - unfold StorageModeManager.getActiveService, bind, window_dataSdk, ret. cbn.
    destruct (truthy_opt (dataSdk w)); reflexivity.
  - intros value Hrejected. unfold StorageModeManager.setMode in *.
    destruct (Array_includes _ value); [discriminate|reflexivity].
Qed.

(** ** getStats and getInfo *)

Lemma getStats_run_array
    (this : OfflineStorageService.t) (Blob_size : text → Z) (w : Window)
    (xs : list JSON) :
  collection w = JArr xs →
  getStats this Blob_size w =
    (Normal {| Stats.totalPlayers := Some (JNum (Z.of_nat (length xs)));
               Stats.storageUsed := Blob_size (Serialized (JArr xs));
               Stats.isOnline := false;
               Stats.mode := "offline" |}, w).
Proof.
  intros Hc. unfold getStats.
  erewrite bind_run by apply getAllPlayers_run.
  rewrite Hc. reflexivity.
Qed.

(** X21.  [getStats] writes nothing, whatever is stored, and does not
    ask whether the store was initialized.  When the collection is an array
    it reports the number of its entries, which is zero when the players
    key is missing, empty or unparseable, together with the size of the
    collection's text and the fixed markers of the offline back end. *)
Theorem getStats_counts
    (this : OfflineStorageService.t) (Blob_size : text → Z) (w : Window) :
  (∃ outcome, getStats this Blob_size w = (outcome, w))
  ∧ (∀ xs, collection w = JArr xs →
       getStats this Blob_size w =
         (Normal {| Stats.totalPlayers := Some (JNum (Z.of_nat (length xs)));
                    Stats.storageUsed := Blob_size (Serialized (JArr xs));
                    Stats.isOnline := false;
                    Stats.mode := "offline" |}, w)).
Proof.
  split; [|intros xs; apply getStats_run_array].
  unfold getStats. erewrite bind_run by apply getAllPlayers_run.
  unfold bind, get, ret, throw.
  destruct (collection w); eexists; reflexivity.
Qed.

Lemma getStats_counts_witness :
  let w := with_items (insert PLAYERS Malformed) Examples.fresh_window in
  Stats.totalPlayers (match getStats Examples.uninitialized (λ _, 2) w with
                      | (Normal stats, _) => stats
                      | (Abrupt _, _) =>
                          {| Stats.totalPlayers := None; Stats.storageUsed := 0;
                             Stats.isOnline := true; Stats.mode := "" |}
                      end)
  = Some (JNum 0).
Proof.
  intros w.
  destruct (getStats_counts Examples.uninitialized (λ _, 2) w) as [_ Hcount].
  rewrite (Hcount [] eq_refl). reflexivity.
Defined.

Lemma getActiveService_cases (this : StorageModeManager.t) (w : Window) :
  StorageModeManager.getActiveService this w
    = (Normal (StorageModeManager.window_dataSdk_value (dataSdk w)), w)
  ∨ StorageModeManager.getActiveService this w
    = (Normal (StorageModeManager.this_offlineService
                 (StorageModeManager.offlineService this)), w).
Proof.
  unfold StorageModeManager.getActiveService, bind, window_dataSdk, ret.
  repeat match goal with
         | |- context [if ?c then _ else _] => destruct c
         end; auto.
Qed.

(** X22.  [getStats] has no [try]: when the players text is the text of
    [null] it throws the TypeError of [players.length], and [getInfo],
    which calls it, throws with it; the host is unchanged. *)
Theorem getStats_throws_on_null
    (manager : StorageModeManager.t) (Blob_size : text → Z) (w : Window) :
  localStorage w !! PLAYERS = Some (Serialized JNull) →
  getStats (StorageModeManager.offlineService manager) Blob_size w = (Abrupt TypeError, w)
  ∧ getInfo manager Blob_size w = (Abrupt TypeError, w).
Proof.
  intros Hp. pose proof (persisted_collection w _ Hp) as Hc.
  assert (Hstats : ∀ this, getStats this Blob_size w = (Abrupt TypeError, w)).
  { intros this. unfold getStats.
    erewrite bind_run by apply getAllPlayers_run. rewrite Hc. reflexivity. }
  split; [apply Hstats|].
  unfold getInfo.
  destruct (getActiveService_cases manager w) as [Hs|Hs];
    erewrite bind_run by exact Hs; erewrite bind_throws by apply Hstats;
    reflexivity.
Qed.

Lemma getStats_throws_on_null_witness :
  getInfo Examples.manager (λ _, 4) Examples.null_players_debug
  = (Abrupt TypeError, Examples.null_players_debug).
Proof.
  apply (getStats_throws_on_null Examples.manager (λ _, 4) Examples.null_players_debug).
  reflexivity.
Defined.

(** X23.  When the collection is an array, [getInfo] changes nothing and
    reports the manager's mode and availability flag; its [activeService]
    is ['online'] exactly when [getActiveService] resolves to the remote
    binding; and its statistics are those of the offline store, marked
    offline, whichever service is active. *)
Theorem getInfo_agrees_with_getActiveService
    (this : StorageModeManager.t) (Blob_size : text → Z) (w : Window)
    (xs : list JSON) :
  collection w = JArr xs →
  ∃ info,
    getInfo this Blob_size w = (Normal info, w)
    ∧ Info.mode info = StorageModeManager.mode this
    ∧ Info.onlineAvailable info = StorageModeManager.onlineAvailable this
    ∧ (Info.activeService info = "online"%string
       ∧ StorageModeManager.getActiveService this w
         = (Normal (StorageModeManager.window_dataSdk_value (dataSdk w)), w)
       ∨ Info.activeService info = "offline"%string
         ∧ StorageModeManager.getActiveService this w
           = (Normal (StorageModeManager.this_offlineService
                        (StorageModeManager.offlineService this)), w))
    ∧ Info.stats info =
        {| Stats.totalPlayers := Some (JNum (Z.of_nat (length xs)));
           Stats.storageUsed := Blob_size (Serialized (JArr xs));
           Stats.isOnline := false;
           Stats.mode := "offline" |}.
Proof.
  intros Hc.
  pose proof (getStats_run_array (StorageModeManager.offlineService this)
                Blob_size w xs Hc) as Hstats.
  unfold getInfo.
  destruct (getActiveService_cases this w) as [Hs|Hs];
    erewrite bind_run by exact Hs;
    erewrite bind_run by exact Hstats; eexists; (split; [reflexivity|]);
    cbn [Info.mode Info.onlineAvailable Info.activeService Info.stats];
    repeat split; auto.
Qed.

Lemma getInfo_agrees_with_getActiveService_witness :
  let w := {| localStorage := {[ PLAYERS := Serialized (JArr [Examples.player "A"]) ]};
              quota := λ _ _ _, true; DEBUG_MODE := false;
              dataSdk := Some (JObj ∅); delivered := [] |} in
  let forced := (StorageModeManager.setMode Examples.manager (JStr "online")).1 in
  ∃ info,
    getInfo forced (λ _, 14) w = (Normal info, w)
    ∧ Info.activeService info = "online"%string
    ∧ Stats.isOnline (Info.stats info) = false
    ∧ Stats.totalPlayers (Info.stats info) = Some (JNum 1).
Proof.
  intros w forced.
  destruct (getInfo_agrees_with_getActiveService forced (λ _, 14) w [Examples.player "A"])
    as (info & Hrun & _ & _ & Hactive & Hstats).
  - reflexivity.
  - exists info. split; [exact Hrun|]. rewrite Hstats.
    split; [|split; reflexivity].
    destruct Hactive as [[Ha _]|[_ Hb]]; [exact Ha|discriminate Hb].
Defined.

(** ** Loading the module: two services over one store *)

(** X24.  On a host that accepts writes, loading the module succeeds and
    creates two services, [window.offlineStorage] and the manager's own
    one, both uninitialized and without a handler, and a manager in mode
    ['auto'] with the availability flag cleared.  Afterwards the players
    and the settings keys hold a non-empty text, and a text that was there
    before has not been overwritten. *)
Theorem load_establishes (w : Window) :
  accepts_all w →
  ∃ w',
    load w = (Normal {| offlineStorage := new_service;
                        storageModeManager := new_manager |}, w')
    ∧ text_truthy (localStorage w' !! PLAYERS) = true
    ∧ text_truthy (localStorage w' !! SETTINGS) = true
    ∧ (∀ key, text_truthy (localStorage w !! key) = true
              ∨ (key ≠ PLAYERS ∧ key ≠ SETTINGS) →
              localStorage w' !! key = localStorage w !! key)
    ∧ delivered w' = delivered w.
Proof.
  intros Hacc.
  assert (Hinit : ∃ w', OfflineStorageService._initializeStorage w = (Normal tt, w')).
  { rewrite initializeStorage_run. cbv zeta. unfold setItem.
    cbn [quota with_items]. rewrite !Hacc.
    repeat match goal with
           | |- context [if ?c then _ else _] => destruct c
           end; eexists; reflexivity. }
  destruct Hinit as [w' Hinit].
  destruct (initializeStorage_outcome w w' Hinit) as (Hp & Hs & Hkeep & Hd & Hagain).
  exists w'. split; [|auto].
  unfold load.
  erewrite bind_run by (rewrite service_new_run, Hinit; reflexivity).
  erewrite bind_run by (rewrite manager_new_run, Hagain; reflexivity).
  reflexivity.
Qed.

Lemma load_establishes_witness :
  let w := with_items (delete SETTINGS)
             (Examples.holding [Examples.player_with_id "A" "x1"]) in
  ∃ w',
    load w = (Normal {| offlineStorage := new_service;
                        storageModeManager := new_manager |}, w')
    ∧ localStorage w' !! PLAYERS
      = Some (Serialized (JArr [Examples.player_with_id "A" "x1"]))
    ∧ text_truthy (localStorage w' !! SETTINGS) = true.
Proof.
  intros w.
  destruct (load_establishes w) as (w' & Hload & _ & Hs & Hkeep & _).
  - intros m key value. reflexivity.
  - exists w'. split; [exact Hload|]. split; [|exact Hs].
    rewrite (Hkeep PLAYERS); [reflexivity|]. left. reflexivity.
Defined.

(** X25.  The constructors are not guarded: when the players key is
    missing or empty and the host refuses to write the empty collection,
    loading the module throws and creates nothing. *)
Theorem load_throws_when_refused (w : Window) :
  text_truthy (localStorage w !! PLAYERS) = false →
  quota w (localStorage w) PLAYERS (Serialized (JArr [])) = false →
  OfflineStorageService.new w = (Abrupt QuotaExceededError, w)
  ∧ StorageModeManager.new w = (Abrupt QuotaExceededError, w)
  ∧ load w = (Abrupt QuotaExceededError, w).
Proof.
  intros Hp Hq.
  assert (Hinit : OfflineStorageService._initializeStorage w
                  = (Abrupt QuotaExceededError, w)).
  { rewrite initializeStorage_run. cbv zeta. rewrite Hp, Hq. reflexivity. }
  assert (Hnew : OfflineStorageService.new w = (Abrupt QuotaExceededError, w)).
  { rewrite service_new_run, Hinit. reflexivity. }
  split; [exact Hnew|]. split.
  - rewrite manager_new_run, Hinit. reflexivity.
  - unfold load. erewrite bind_throws by exact Hnew. reflexivity.
Qed.

Lemma load_throws_when_refused_witness :
  let w := {| localStorage := ∅; quota := λ _ _ _, false; DEBUG_MODE := false;
              dataSdk := None; delivered := [] |} in
  load w = (Abrupt QuotaExceededError, w).
Proof.
  intros w. apply (load_throws_when_refused w); reflexivity.
Defined.



(** X27.  Two initialized services share the one collection but not their
    handlers: a record created through a service without a callback is
    returned by [read] on any other initialized service, and the other
    service's callback is not called. *)
Theorem services_share_the_collection
    (writer reader : OfflineStorageService.t) (record : JSON)
    (now : Z) (random36 : string) (w : Window) (xs : list JSON) :
  OfflineStorageService.initialized writer = true →
  OfflineStorageService.initialized reader = true →
  callback_of (OfflineStorageService.dataHandler writer) = None →
  collection w = JArr xs →
  accepts_all w →
  ∃ w',
    OfflineStorageService.create writer record now random36 w
      = (Normal (OfflineResult.ok undefined), w')
    ∧ delivered w' = delivered w
    ∧ OfflineStorageService.read reader w'
      = (Normal (OfflineResult.ok
                   (Some (JArr (xs ++ [Replay.identified record
                                         (OfflineStorageService._generateId
                                            now random36)])))), w').
Proof.
  intros Hw Hr Hsilent Hc Hacc.
  rewrite create_run, Hw, Hc. cbv zeta. rewrite Hacc, notify_run, Hsilent.
  eexists. split; [reflexivity|]. split; [reflexivity|].
  rewrite (read_succeeds reader _ Hr).
  - unfold collection. cbn [localStorage with_items].
    rewrite lookup_insert_eq. reflexivity.
  - right. unfold collection. cbn [localStorage with_items].
    rewrite lookup_insert_eq. discriminate.
Qed.

Lemma services_share_the_collection_witness :
  let writer := {| OfflineStorageService.dataHandler := None;
                   OfflineStorageService.initialized := true |} in
  ∃ w',
    OfflineStorageService.create writer (Examples.player "A")
      1700000000000 "0.4fzyo82mvyr" Examples.fresh_window
      = (Normal (OfflineResult.ok undefined), w')
    ∧ delivered w' = []
    ∧ OfflineStorageService.read Examples.ready w'
      = (Normal (OfflineResult.ok
                   (Some (JArr [Examples.player_with_id "A"
                                  "offline_1700000000000_4fzyo82mv"]))), w').
Proof.
  intros writer.
  destruct (services_share_the_collection writer Examples.ready (Examples.player "A")
              1700000000000 "0.4fzyo82mvyr" Examples.fresh_window [])
    as (w' & Hcreate & Hd & Hread); try reflexivity.
  - intros m key value. reflexivity.
  - exists w'. split; [exact Hcreate|]. split; [exact Hd|]. exact Hread.
Defined.

(** ** Duplicated identifiers and unvalidated records *)

Lemma replace_matching_first (id copy p : JSON) (pre post : list JSON) :
  existsb (carries id) pre = false →
  carries id p = true →
  Replay.replace_matching id copy (pre ++ p :: post) = pre ++ copy :: post.
Proof.
  intros Hpre Hp. induction pre as [|q pre IH]; cbn.
  - unfold Replay.matches. rewrite Hp. reflexivity.
  - cbn [existsb] in Hpre. apply orb_false_iff in Hpre as [Hq Hpre].
    unfold Replay.matches. rewrite Hq. f_equal. apply IH, Hpre.
Qed.

(** X28.  When several entries carry the same identifier, [update]
    replaces only the first of them and leaves the later ones, even those
    carrying the identifier, as they are; the entry is replaced by the
    submitted record as a whole, so a field that the record does not carry
    is gone. *)
Theorem update_replaces_first
    (this : OfflineStorageService.t) (o : gmap string JSON) (id p : JSON)
    (pre post : list JSON) (w : Window) :
  OfflineStorageService.initialized this = true →
  accepts_all w →
  localStorage w !! PLAYERS = Some (Serialized (JArr (pre ++ p :: post))) →
  no_null_entry (pre ++ p :: post) = true →
  o !! "__backendId" = Some id →
  truthy id = true →
  existsb (carries id) pre = false →
  carries id p = true →
  OfflineStorageService.update this (JObj o) w
  = after_saving this (JArr (pre ++ JObj o :: post)) w.
Proof.
  intros Hinit Hacc Hp Hnn Hid Ht Hpre Hcarries.
  rewrite (update_run this o id _ w Hinit Hid Ht (persisted_collection w _ Hp) Hnn).
  rewrite existsb_app. cbn [existsb]. rewrite Hcarries, orb_true_r.
  cbv zeta. rewrite Hacc.
  rewrite (replace_matching_first id (JObj o) p pre post Hpre Hcarries).
  apply notified_is_after_saving.
Qed.

Lemma update_replaces_first_witness :
  let first := JObj {[ "name" := JStr "A"; "score" := JNum 7;
                       "__backendId" := JStr "x1" ]} in
  let second := Examples.player_with_id "B" "x1" in
  let record := Examples.player_with_id "A2" "x1" in
  ∃ w',
    OfflineStorageService.update Examples.ready record (Examples.holding [first; second])
      = (Normal (OfflineResult.ok undefined), w')
    ∧ localStorage w' !! PLAYERS = Some (Serialized (JArr [record; second])).
Proof.
  intros first second record.
  assert (H : OfflineStorageService.update Examples.ready record
                (Examples.holding [first; second])
              = after_saving Examples.ready (JArr [record; second])
                  (Examples.holding [first; second])).
  { apply (update_replaces_first Examples.ready
             {[ "name" := JStr "A2"; "__backendId" := JStr "x1" ]} (JStr "x1")
             first [] [second] (Examples.holding [first; second])); try reflexivity.
    intros m key value. reflexivity. }
  eexists. split; [exact H|reflexivity].
Defined.

(** X29.  [create] does not validate what it is given: for [null], a
    number or a boolean, on an initialized store whose collection is an
    array and whose host accepts writes, it stores a record that carries
    the generated identifier and nothing else. *)
Theorem create_accepts_anything
    (this : OfflineStorageService.t) (record : JSON) (now : Z) (random36 : string)
    (w : Window) (xs : list JSON) :
  OfflineStorageService.initialized this = true →
  accepts_all w →
  collection w = JArr xs →
  match record with JNull | JBool _ | JNum _ => True | _ => False end →
  OfflineStorageService.create this record now random36 w
  = after_saving this
      (JArr (xs ++ [JObj {[ "__backendId" :=
                              JStr (OfflineStorageService._generateId now random36) ]}]))
      w.
Proof.
  intros Hinit Hacc Hc Hrecord.
  rewrite create_run, Hinit, Hc. cbv zeta. rewrite Hacc.
  rewrite notified_is_after_saving. unfold Replay.identified.
  destruct record; try contradiction; reflexivity.
Qed.

Lemma create_accepts_anything_witness :
  ∃ w',
    OfflineStorageService.create Examples.ready JNull
      1700000000000 "0.4fzyo82mvyr" Examples.fresh_window
      = (Normal (OfflineResult.ok undefined), w')
    ∧ localStorage w' !! PLAYERS
      = Some (Serialized
                (JArr [JObj {[ "__backendId" := JStr "offline_1700000000000_4fzyo82mv" ]}])).
Proof.
  assert (H : OfflineStorageService.create Examples.ready JNull
                1700000000000 "0.4fzyo82mvyr" Examples.fresh_window
              = after_saving Examples.ready
                  (JArr [JObj {[ "__backendId" :=
                                   JStr "offline_1700000000000_4fzyo82mv" ]}])
                  Examples.fresh_window).
  { apply (create_accepts_anything Examples.ready JNull 1700000000000 "0.4fzyo82mvyr"
             Examples.fresh_window []); try reflexivity; try exact I.
    intros m key value. reflexivity. }
  eexists. split; [exact H|reflexivity].
Defined.
